(** * bankroll-broker-vanguard: the Vanguard CSV adapter

    A shallow embedding of [vanguard.py] together with the fragments of the
    Python runtime it calls ([Decimal], [datetime.strptime], [re.match],
    list slices, [NamedTuple._make]) and of the collaborators it imports
    ([model], [analysis], [csvsectionslicer], [parsetools]).

    Text is modelled by [string]: a sequence of characters with code points
    0..255.  A CSV file is modelled by the sequence of rows [csv.reader]
    yields for it. *)

From Stdlib Require Import ZArith NArith String Ascii Lia.
From stdpp Require Import base tactics option list gmap strings.

Local Open Scope string_scope.

(* ===================================================================== *)
(** * Exceptions and fallible computations *)
(* ===================================================================== *)

(** The exception classes that the adapter and the runtime fragments below
    can raise. *)
Inductive exn : Type :=
| ValueError        (* datetime.strptime, validating domain constructors *)
| InvalidOperation  (* decimal.InvalidOperation, an ArithmeticError *)
| Overflow          (* decimal.Overflow, an ArithmeticError *)
| AssertionError    (* a failed [assert] *)
| TypeError         (* NamedTuple._make on a row of the wrong arity *)
| KeyError.         (* dict indexing on an absent key *)

#[global] Instance exn_eq_dec : EqDecision exn.
Proof. solve_decision. Defined.

(** A computation either returns a value or raises. *)
Inductive result (A : Type) : Type :=
| Ok (a : A)
| Raise (e : exn).
Arguments Ok {A} a.
Arguments Raise {A} e.

#[global] Instance result_ret : MRet result := fun A a => Ok a.
#[global] Instance result_bind : MBind result := fun A B f m =>
  match m with
  | Ok a => f a
  | Raise e => Raise e
  end.

Definition is_Ok {A} (r : result A) : Prop := exists a, r = Ok a.

(** [assert cond] *)
Definition py_assert (cond : bool) : result unit :=
  if cond then Ok tt else Raise AssertionError.

(** A constructor that validates its arguments and raises [ValueError]
    when they are invalid. *)
Definition validated {A} (valid : bool) (a : A) : result A :=
  if valid then Ok a else Raise ValueError.

(* ===================================================================== *)
(** * Python sequences and characters *)
(* ===================================================================== *)

Module Py.

(** Normalisation of one slice bound against a sequence of length [len]:
    a negative bound counts from the end, and both are clamped. *)
Definition slice_bound (len i : Z) : Z :=
  if (i <? 0)%Z then Z.max 0 (i + len) else Z.min i len.

(** [l[start:stop]] *)
Definition slice {A} (start stop : Z) (l : list A) : list A :=
  let len := Z.of_nat (length l) in
  let a := slice_bound len start in
  let b := slice_bound len stop in
  take (Z.to_nat (b - a)) (drop (Z.to_nat a) l).

Definition code (c : ascii) : N := N_of_ascii c.

(** [str.isspace] on one character, which is also the class [\s] of [re]
    for text patterns. *)
Definition isspace (c : ascii) : bool :=
  let n := code c in
  ((9 <=? n) && (n <=? 13) || (28 <=? n) && (n <=? 32)
   || (n =? 133) || (n =? 160))%N.

(** The class [\d] of [re] restricted to code points below 256, which is
    also the digit class of the [Decimal] constructor there. *)
Definition isdigit (c : ascii) : bool :=
  let n := code c in ((48 <=? n) && (n <=? 57))%N.

Definition digit_value (c : ascii) : N := (code c - 48)%N.

(** [str.lower] on one character of the ASCII range *)
Definition lower (c : ascii) : ascii :=
  let n := code c in
  if ((65 <=? n) && (n <=? 90))%N then ascii_of_N (n + 32) else c.

Fixpoint lower_str (s : string) : string :=
  match s with
  | EmptyString => EmptyString
  | String c r => String (lower c) (lower_str r)
  end.

(** [str.lstrip()], [str.rstrip()] and [str.strip()] *)
Fixpoint lstrip (s : string) : string :=
  match s with
  | EmptyString => EmptyString
  | String c r => if isspace c then lstrip r else s
  end.

Fixpoint rstrip (s : string) : string :=
  match s with
  | EmptyString => EmptyString
  | String c r =>
      match rstrip r with
      | EmptyString => if isspace c then EmptyString else String c EmptyString
      | r' => String c r'
      end
  end.

Definition strip (s : string) : string := rstrip (lstrip s).

(** [s.replace(c, "")] for a one-character [c] *)
Fixpoint remove_char (c : ascii) (s : string) : string :=
  match s with
  | EmptyString => EmptyString
  | String d r =>
      if Ascii.eqb c d then remove_char c r else String d (remove_char c r)
  end.

(** The longest prefix of digits, and the rest: what [\d*] consumes. *)
Fixpoint span_digits (s : string) : string * string :=
  match s with
  | EmptyString => (EmptyString, EmptyString)
  | String c r =>
      if isdigit c
      then let '(ds, rest) := span_digits r in (String c ds, rest)
      else (EmptyString, s)
  end.

Fixpoint all_digits (s : string) : bool :=
  match s with
  | EmptyString => true
  | String c r => isdigit c && all_digits r
  end.

(** [int(ds)] for a string of digits, read left to right. *)
Fixpoint int_of_digits_from (acc : N) (ds : string) : N :=
  match ds with
  | EmptyString => acc
  | String c r => int_of_digits_from (10 * acc + digit_value c)%N r
  end.

Definition int_of_digits (ds : string) : N := int_of_digits_from 0 ds.

End Py.

(* ===================================================================== *)
(** * Regular expressions ([re]) *)
(* ===================================================================== *)

Module Re.

(** The fragment of the pattern language that the adapter uses. *)
Inductive regex : Type :=
| Void                         (* matches no text *)
| Eps                          (* the empty pattern *)
| Class (p : ascii -> bool)    (* one character of a class *)
| Seq (r1 r2 : regex)
| Alt (r1 r2 : regex)
| Star (r : regex).

Definition Plus (r : regex) : regex := Seq r (Star r).
Definition Char (c : ascii) : regex := Class (Ascii.eqb c).

Definition newline : ascii := "010"%char.

(** [.] without DOTALL: any character but a newline *)
Definition dot : regex := Class (fun c => negb (Ascii.eqb c newline)).

(** [\s] *)
Definition space : regex := Class Py.isspace.

(** [$] without MULTILINE, closing a pattern: the end of the text, or a
    newline that ends the text. *)
Definition dollar : regex := Alt Eps (Char newline).

Fixpoint nullable (r : regex) : bool :=
  match r with
  | Void => false
  | Eps => true
  | Class _ => false
  | Seq r1 r2 => nullable r1 && nullable r2
  | Alt r1 r2 => nullable r1 || nullable r2
  | Star _ => true
  end.

(** The residual of [r] after reading [c]. *)
Fixpoint deriv (c : ascii) (r : regex) : regex :=
  match r with
  | Void => Void
  | Eps => Void
  | Class p => if p c then Eps else Void
  | Seq r1 r2 =>
      if nullable r1
      then Alt (Seq (deriv c r1) r2) (deriv c r2)
      else Seq (deriv c r1) r2
  | Alt r1 r2 => Alt (deriv c r1) (deriv c r2)
  | Star r1 => Seq (deriv c r1) (Star r1)
  end.

(** Whether the whole of [s] is matched by [r]. *)
Fixpoint fullmatch (r : regex) (s : string) : bool :=
  match s with
  | EmptyString => nullable r
  | String c s' => fullmatch (deriv c r) s'
  end.

(** [re.match(p, s)] for a pattern [p] of the shape [^body$]: the match
    starts at the start of the text ([^] adds nothing to that), and [$]
    leaves at most a final newline unread. *)
Definition match_anchored (body : regex) (s : string) : bool :=
  fullmatch (Seq body dollar) s.

(** The texts a pattern denotes. *)
Inductive lang : regex -> string -> Prop :=
| lang_eps : lang Eps ""
| lang_class p c : p c = true -> lang (Class p) (String c "")
| lang_seq r1 r2 s1 s2 :
    lang r1 s1 -> lang r2 s2 -> lang (Seq r1 r2) (s1 ++ s2)
| lang_alt_l r1 r2 s : lang r1 s -> lang (Alt r1 r2) s
| lang_alt_r r1 r2 s : lang r2 s -> lang (Alt r1 r2) s
| lang_star_nil r : lang (Star r) ""
| lang_star_cons r s1 s2 :
    lang r s1 -> lang (Star r) s2 -> lang (Star r) (s1 ++ s2).

End Re.

(* ===================================================================== *)
(** * Decimal numbers ([decimal]) *)
(* ===================================================================== *)

Module PyDecimal.

(** A [Decimal] as [as_tuple()] shows it: sign (true for negative),
    coefficient and exponent; or one of the special values. *)
Inductive Decimal : Type :=
| Finite (sign : bool) (coefficient : N) (exponent : Z)
| Infinity (sign : bool)
| NaN (sign : bool) (signaling : bool) (payload : N).

#[global] Instance Decimal_eq_dec : EqDecision Decimal.
Proof. solve_decision. Defined.

Definition is_finite (d : Decimal) : bool :=
  match d with Finite _ _ _ => true | _ => false end.

(** [-d] as a value: the same digits and exponent under the other sign. *)
Definition negation (d : Decimal) : Decimal :=
  match d with
  | Finite s c e => Finite (negb s) c e
  | Infinity s => Infinity (negb s)
  | NaN s sg p => NaN (negb s) sg p
  end.

(** ** Construction from text *)

(** An optional sign, [[-+]?]. *)
Definition take_sign (s : string) : bool * string :=
  match s with
  | String "-" r => (true, r)
  | String "+" r => (false, r)
  | _ => (false, s)
  end.

(** The lookahead [(?=\d|\.\d)]: a number has at least one digit. *)
Definition starts_number (s : string) : bool :=
  match s with
  | String c r =>
      Py.isdigit c ||
      (Ascii.eqb c "." &&
         match r with String d _ => Py.isdigit d | EmptyString => false end)
  | EmptyString => false
  end.

(** The optional exponent part [(E[-+]?\d+)?] followed by the end of the
    text; the exponent read, or nothing when the text does not end so. *)
Definition parse_exponent (s : string) : option Z :=
  match s with
  | EmptyString => Some 0%Z
  | String c r =>
      if Ascii.eqb (Py.lower c) "e" then
        let '(neg, r1) := take_sign r in
        match r1 with
        | EmptyString => None
        | _ =>
            if Py.all_digits r1
            then let n := Z.of_N (Py.int_of_digits r1) in
                 Some (if neg then (- n)%Z else n)
            else None
        end
      else None
  end.

(** The numeric alternative: integer part, optional fractional part,
    optional exponent.  Returns coefficient and exponent. *)
Definition parse_number (s : string) : option (N * Z) :=
  if starts_number s then
    let '(intpart, r1) := Py.span_digits s in
    let '(fracpart, r2) :=
      match r1 with
      | String "." r => Py.span_digits r
      | _ => (EmptyString, r1)
      end in
    match parse_exponent r2 with
    | Some exp =>
        Some (Py.int_of_digits (intpart ++ fracpart),
              (exp - Z.of_nat (String.length fracpart))%Z)
    | None => None
    end
  else None.

(** The special alternatives [Inf(inity)?] and [s?NaN\d*], matched
    without regard to case. *)
Definition parse_special (sign : bool) (s : string) : option Decimal :=
  let l := Py.lower_str s in
  if decide (l = "inf" \/ l = "infinity") then Some (Infinity sign)
  else
    let '(signaling, r) :=
      match l with
      | String "s" r => (true, r)
      | _ => (false, l)
      end in
    match r with
    | String "n" (String "a" (String "n" diag)) =>
        if Py.all_digits diag
        then Some (NaN sign signaling (Py.int_of_digits diag))
        else None
    | _ => None
    end.

(** [Decimal(value)] for a text [value]: surrounding whitespace and all
    underscores are removed, then the whole text has to be a number or a
    special value, else [InvalidOperation] is raised.  No rounding takes
    place: every digit of the text is kept. *)
Definition of_string (value : string) : result Decimal :=
  let s := Py.remove_char "_" (Py.strip value) in
  let '(sign, body) := take_sign s in
  match parse_number body with
  | Some (c, e) => Ok (Finite sign c e)
  | None =>
      match parse_special sign body with
      | Some d => Ok d
      | None => Raise InvalidOperation
      end
  end.

(** [Decimal(n)] for an [int] *)
Definition of_int (n : Z) : Decimal :=
  Finite (n <? 0)%Z (Z.abs_N n) 0.

(** ** Arithmetic in the default context *)

Definition prec : Z := 28.
Definition Emax : Z := 999999.
Definition Emin : Z := -999999.
Definition Etiny : Z := Emin - prec + 1.
Definition Etop : Z := Emax - prec + 1.

(** [len(str(c))]: the number of decimal digits of [c]. *)
Fixpoint ndigits_fuel (fuel : nat) (c : N) : Z :=
  match fuel with
  | O => 1
  | S fuel' =>
      if (c <? 10)%N then 1%Z else (1 + ndigits_fuel fuel' (c / 10)%N)%Z
  end.

Definition ndigits (c : N) : Z := ndigits_fuel (N.to_nat (N.size c)) c.

(** ROUND_HALF_EVEN of [c] to [c] without its last [k] digits, [0 < k]:
    the kept digits, plus one when the dropped digits are above one half,
    or are one half exactly and the last kept digit is odd. *)
Definition round_half_even (c : N) (k : Z) : N :=
  let unit := (10 ^ Z.to_N k)%N in
  let q := (c / unit)%N in
  let r := (c mod unit)%N in
  let half := (5 * 10 ^ Z.to_N (k - 1))%N in
  if (half <? r)%N || ((r =? half)%N && N.odd q) then (q + 1)%N else q.

(** [Decimal._fix]: the result of an operation is brought into the
    context: rounded to [prec] digits, its exponent kept within
    [Etiny .. Etop]; [Overflow] is trapped, so it raises. *)
Definition fix_finite (sign : bool) (c : N) (exp : Z) : result Decimal :=
  if (c =? 0)%N then
    Ok (Finite sign 0 (Z.min (Z.max exp Etiny) Emax))
  else
    let exp_min := (ndigits c + exp - prec)%Z in
    if (Etop <? exp_min)%Z then Raise Overflow
    else
      let exp_min := Z.max exp_min Etiny in
      if (exp <? exp_min)%Z then
        let digits := (ndigits c + exp - exp_min)%Z in
        let '(c1, exp1, digits) :=
          if (digits <? 0)%Z then (1%N, (exp_min - 1)%Z, 0%Z)
          else (c, exp, digits) in
        let coeff := round_half_even c1 (ndigits c1 - digits) in
        let '(coeff, exp_min) :=
          if (prec <? ndigits coeff)%Z
          then ((coeff / 10)%N, (exp_min + 1)%Z)
          else (coeff, exp_min) in
        if (Etop <? exp_min)%Z then Raise Overflow
        else Ok (Finite sign coeff exp_min)
      else Ok (Finite sign c exp).

(** [Decimal._fix_nan]: a payload keeps its last [prec] digits. *)
Definition fix_nan (sign signaling : bool) (payload : N) : Decimal :=
  if (prec <? ndigits payload)%Z
  then NaN sign signaling (payload mod 10 ^ Z.to_N prec)%N
  else NaN sign signaling payload.

Definition is_zero (d : Decimal) : bool :=
  match d with Finite _ c _ => (c =? 0)%N | _ => false end.

Definition sign_of (d : Decimal) : bool :=
  match d with Finite s _ _ | Infinity s | NaN s _ _ => s end.

(** [Decimal.__mul__] in the default context. *)
Definition mul (x y : Decimal) : result Decimal :=
  let resultsign := xorb (sign_of x) (sign_of y) in
  match x, y with
  | NaN _ true _, _ => Raise InvalidOperation
  | _, NaN _ true _ => Raise InvalidOperation
  | NaN s false p, _ => Ok (fix_nan s false p)
  | _, NaN s false p => Ok (fix_nan s false p)
  | Infinity _, _ =>
      if is_zero y then Raise InvalidOperation else Ok (Infinity resultsign)
  | _, Infinity _ =>
      if is_zero x then Raise InvalidOperation else Ok (Infinity resultsign)
  | Finite _ c1 e1, Finite _ c2 e2 =>
      fix_finite resultsign (c1 * c2)%N (e1 + e2)%Z
  end.

(** [d * n] for an [int] [n], which is converted first. *)
Definition mul_int (d : Decimal) (n : Z) : result Decimal :=
  mul d (of_int n).

(** A finite value that the default context holds without rounding. *)
Definition in_context (d : Decimal) : Prop :=
  match d with
  | Finite _ c e =>
      if (c =? 0)%N then (Etiny <= e <= Emax)%Z
      else (ndigits c <= prec /\ Etiny <= e /\ ndigits c + e - 1 <= Emax)%Z
  | _ => False
  end.

End PyDecimal.

(* ===================================================================== *)
(** * Dates ([datetime.strptime]) *)
(* ===================================================================== *)

Module PyDatetime.

Record datetime : Type := mk_datetime {
  year : Z; month : Z; day : Z; hour : Z; minute : Z; second : Z
}.

#[global] Instance datetime_eq_dec : EqDecision datetime.
Proof. solve_decision. Defined.

Definition in_range (lo hi : ascii) : Re.regex :=
  Re.Class (fun c => (Py.code lo <=? Py.code c)%N && (Py.code c <=? Py.code hi)%N).

Definition digit : Re.regex := Re.Class Py.isdigit.

(** [%m]: [1[0-2]|0[1-9]|[1-9]] *)
Definition re_m : Re.regex :=
  Re.Alt (Re.Seq (Re.Char "1") (in_range "0" "2"))
    (Re.Alt (Re.Seq (Re.Char "0") (in_range "1" "9")) (in_range "1" "9")).

(** [%d]: [3[0-1]|[1-2]\d|0[1-9]|[1-9]| [1-9]] *)
Definition re_d : Re.regex :=
  Re.Alt (Re.Seq (Re.Char "3") (in_range "0" "1"))
    (Re.Alt (Re.Seq (in_range "1" "2") digit)
       (Re.Alt (Re.Seq (Re.Char "0") (in_range "1" "9"))
          (Re.Alt (in_range "1" "9")
             (Re.Seq (Re.Char " ") (in_range "1" "9"))))).

(** [%Y]: [\d\d\d\d] *)
Definition re_Y : Re.regex :=
  Re.Seq digit (Re.Seq digit (Re.Seq digit digit)).

(** The pattern that the format ['%m/%d/%Y'] compiles to. *)
Definition re_mdY : Re.regex :=
  Re.Seq re_m (Re.Seq (Re.Char "/") (Re.Seq re_d (Re.Seq (Re.Char "/") re_Y))).

(** The text before the first [c], and the text after it. *)
Fixpoint split_at (c : ascii) (s : string) : option (string * string) :=
  match s with
  | EmptyString => None
  | String d r =>
      if Ascii.eqb c d then Some (EmptyString, r)
      else match split_at c r with
           | Some (a, b) => Some (String d a, b)
           | None => None
           end
  end.

Definition is_leap (y : Z) : bool :=
  ((y mod 4 =? 0) && (negb (y mod 100 =? 0) || (y mod 400 =? 0)))%Z.

Definition days_in_month (y m : Z) : Z :=
  if (m =? 2)%Z then (if is_leap y then 29 else 28)
  else if ((m =? 4) || (m =? 6) || (m =? 9) || (m =? 11))%Z then 30
  else 31.

(** [int(s)] for a group of digits that a blank may precede. *)
Definition int_of_group (s : string) : Z :=
  Z.of_N (Py.int_of_digits (Py.strip s)).

(** [datetime.strptime(s, '%m/%d/%Y')]: the whole of [s] has to match the
    pattern of the format, and the date has to exist; [ValueError]
    otherwise.  The time of day is midnight. *)
Definition strptime_mdY (s : string) : result datetime :=
  if Re.fullmatch re_mdY s then
    match split_at "/" s with
    | Some (m, r) =>
        match split_at "/" r with
        | Some (d, y) =>
            let year := int_of_group y in
            let month := int_of_group m in
            let day := int_of_group d in
            validated ((1 <=? year)%Z && (day <=? days_in_month year month)%Z)
              (mk_datetime year month day 0 0 0)
        | None => Raise ValueError
        end
    | None => Raise ValueError
    end
  else Raise ValueError.

End PyDatetime.

(* ===================================================================== *)
(** * The domain model ([model]) and the basis lookup ([analysis]) *)
(* ===================================================================== *)

(** Modelled from the spec: the domain model (module [model]) is not part
    of these sources.  The spec names its value types (Cash, Instrument,
    Position, Trade, DividendPayment, TradeFlags) and says of their
    constructors that they validate and may fail on invalid values.  The
    records below carry the arguments the adapter passes; what a
    constructor accepts is left to [Collaborators]. *)
Inductive Currency : Type :=
| USD
| OtherCurrency (code : string).

#[global] Instance Currency_eq_dec : EqDecision Currency.
Proof. solve_decision. Defined.

(** Modelled from the spec: the instruments the adapter constructs, an
    equity ([Stock]) and a [Bond] (module [model], not part of these
    sources). *)
Inductive Instrument : Type :=
| Stock (symbol : string) (currency : Currency)
| Bond (symbol : string) (currency : Currency).

#[global] Instance Instrument_eq_dec : EqDecision Instrument.
Proof. solve_decision. Defined.

Definition instrument_symbol (i : Instrument) : string :=
  match i with Stock s _ | Bond s _ => s end.

(** Modelled from the spec: the members of the flag enumeration
    [TradeFlags] (module [model], not part of these sources); a value of
    the enumeration is a combination of members, [|] is their union. *)
Inductive TradeFlag : Type :=
| OPEN | CLOSE | DRIP | EXPIRED | ASSIGNED_OR_EXERCISED.

#[global] Instance TradeFlag_eq_dec : EqDecision TradeFlag.
Proof. solve_decision. Defined.

Definition TradeFlag_to_nat (f : TradeFlag) : nat :=
  match f with
  | OPEN => 0 | CLOSE => 1 | DRIP => 2 | EXPIRED => 3
  | ASSIGNED_OR_EXERCISED => 4
  end.

Definition TradeFlag_of_nat (n : nat) : option TradeFlag :=
  match n with
  | 0 => Some OPEN | 1 => Some CLOSE | 2 => Some DRIP | 3 => Some EXPIRED
  | 4 => Some ASSIGNED_OR_EXERCISED
  | _ => None
  end.

#[global] Instance TradeFlag_countable : Countable TradeFlag.
Proof.
  apply (inj_countable TradeFlag_to_nat TradeFlag_of_nat).
  intros f. destruct f; reflexivity.
Defined.

Abbreviation TradeFlags := (gset TradeFlag).

Import PyDecimal PyDatetime.

Record Cash : Type := mk_Cash {
  cash_currency : Currency;
  cash_quantity : Decimal
}.

#[global] Instance Cash_eq_dec : EqDecision Cash.
Proof. solve_decision. Defined.

Record Trade : Type := mk_Trade {
  trade_date : datetime;
  trade_instrument : Instrument;
  trade_quantity : Decimal;
  trade_amount : Cash;
  trade_fees : Cash;
  trade_flags : TradeFlags
}.

Record DividendPayment : Type := mk_DividendPayment {
  dividend_date : datetime;
  dividend_stock : Instrument;
  dividend_proceeds : Cash
}.

(** An activity record is a [Trade] or a [DividendPayment]. *)
Inductive Activity : Type :=
| ActivityTrade (t : Trade)
| ActivityDividendPayment (d : DividendPayment).

Definition is_Trade (a : Activity) : Prop :=
  match a with ActivityTrade _ => True | ActivityDividendPayment _ => False end.

Record Position : Type := mk_Position {
  position_instrument : Instrument;
  position_quantity : Decimal;
  position_costBasis : Cash
}.

(** Modelled from the spec: what the adapter's collaborators decide.  Each
    [*_valid] is the validation of a domain constructor (module [model]);
    [realizedBasisForSymbol] is the basis lookup (module [analysis]), which
    returns a [Cash] or nothing.  None of them is part of these sources. *)
Class Collaborators : Type := {
  Stock_valid : string -> Currency -> bool;
  Bond_valid : string -> Currency -> bool;
  Cash_valid : Currency -> Decimal -> bool;
  Trade_valid :
    datetime -> Instrument -> Decimal -> Cash -> Cash -> TradeFlags -> bool;
  Position_valid : Instrument -> Decimal -> Cash -> bool;
  realizedBasisForSymbol : string -> list Activity -> option Cash
}.

(* ===================================================================== *)
(** * The section slicer ([csvsectionslicer]) *)
(* ===================================================================== *)

Abbreviation Row := (list string).

(** Modelled from the spec: a section criterion of the section slicer
    (module [csvsectionslicer], not part of these sources): the leading
    cells that open the section, the leading cells that close it (none: the
    section runs to the end of the file), and the filter applied to each of
    its rows. *)
Record CSVSectionCriterion : Type := mk_CSVSectionCriterion {
  startSectionRowMatch : Row;
  endSectionRowMatch : Row;
  rowFilter : Row -> Row
}.

(** Modelled from the spec: the result for one criterion, the filtered rows
    of its section in file order (module [csvsectionslicer]). *)
Record CSVSectionResult : Type := mk_CSVSectionResult {
  rows : list Row
}.

(** Modelled from the spec: a row matches a boundary pattern when its
    leading cells equal the strings of the pattern exactly (module
    [csvsectionslicer]). *)
Definition row_matches (pattern row : Row) : bool :=
  bool_decide (take (length pattern) row = pattern).

(** Modelled from the spec: the state of one criterion during the scan
    (module [csvsectionslicer]); a section that is open or closed holds the
    rows gathered so far, the latest first. *)
Inductive SectionState : Type :=
| NOT_STARTED
| IN_SECTION (gathered : list Row)
| ENDED (gathered : list Row).

(** Modelled from the spec: what one row does to the state of one criterion
    (module [csvsectionslicer], steps 3 and 4 of the slicer's algorithm).
    The row that opens a section and the row that closes it are consumed,
    not emitted. *)
Definition section_step (c : CSVSectionCriterion) (st : SectionState)
    (row : Row) : SectionState :=
  match st with
  | NOT_STARTED =>
      if row_matches (startSectionRowMatch c) row then IN_SECTION []
      else NOT_STARTED
  | IN_SECTION acc =>
      if bool_decide (endSectionRowMatch c <> [])
         && row_matches (endSectionRowMatch c) row
      then ENDED acc
      else IN_SECTION (rowFilter c row :: acc)
  | ENDED acc => ENDED acc
  end.

(** Modelled from the spec: the result of a criterion at the end of the
    file (module [csvsectionslicer], steps 5 and 6): a section still open
    ends there, and a criterion that never opened has no rows. *)
Definition section_result (st : SectionState) : CSVSectionResult :=
  match st with
  | NOT_STARTED => mk_CSVSectionResult []
  | IN_SECTION acc | ENDED acc => mk_CSVSectionResult (reverse acc)
  end.

(** Modelled from the spec: [parseSectionsForCSV] (module
    [csvsectionslicer], not part of these sources): one pass over the rows
    of the file, each row given to every criterion, one result per
    criterion in the order of the criteria. *)
Definition parseSectionsForCSV (csvfile : list Row)
    (criteria : list CSVSectionCriterion) : list CSVSectionResult :=
  let states :=
    foldl (fun sts row => zip_with (fun c st => section_step c st row) criteria sts)
      (replicate (length criteria) NOT_STARTED) csvfile in
  section_result <$> states.

(* ===================================================================== *)
(** * The lenient row transformer ([parsetools]) *)
(* ===================================================================== *)

(** Modelled from the spec: the failures of a conversion that the lenient
    row transformer treats as row-level (module [parsetools], not part of
    these sources).  Sections 4.3 and 7 of the spec list them: a bad date
    and a failed validation of a domain constructor ([ValueError]), a bad
    decimal ([InvalidOperation], [Overflow]), and a missing basis, which
    the adapter signals by a failed assertion ([AssertionError]).  A row of
    the wrong arity and an absent key are not listed. *)
Definition is_conversion_failure (e : exn) : bool :=
  match e with
  | ValueError | InvalidOperation | Overflow | AssertionError => true
  | TypeError | KeyError => false
  end.

(** Modelled from the spec: [lenientParse] (module [parsetools], not part
    of these sources), consumed to its end as the adapter does with
    [list(...)].  The items come from a lazy sequence, so producing one may
    raise.  A conversion failure is skipped in lenient mode and propagates
    in strict mode; a result of the conversion, be it [None], is passed
    on. *)
Fixpoint lenientParse {A B} (xs : list (result A))
    (transform : A -> result B) (lenient : bool) : result (list B) :=
  match xs with
  | [] => Ok []
  | x :: xs' =>
      match x with
      | Raise e => Raise e
      | Ok a =>
          match transform a with
          | Ok b => bs ← lenientParse xs' transform lenient; mret (b :: bs)
          | Raise e =>
              if lenient && is_conversion_failure e
              then lenientParse xs' transform lenient
              else Raise e
          end
      end
  end.

(* ===================================================================== *)
(** * vanguard.py *)
(* ===================================================================== *)

Record PositionsAndActivity : Type := mk_PositionsAndActivity {
  positions : list Position;
  activity : list Activity
}.

Record VanguardPosition : Type := mk_VanguardPosition {
  vp_investmentName : string;
  vp_symbol : string;
  vp_shares : string;
  vp_sharePrice : string;
  vp_totalValue : string
}.

Record VanguardPositionAndActivity : Type := mk_VanguardPositionAndActivity {
  vpa_position : VanguardPosition;
  vpa_activity : list Activity
}.

Record VanguardTransaction : Type := mk_VanguardTransaction {
  tradeDate : string;
  settlementDate : string;
  transactionType : string;
  transactionDescription : string;
  investmentName : string;
  symbol : string;
  shares : string;
  sharePrice : string;
  principalAmount : string;
  commissionFees : string;
  netAmount : string;
  accruedInterest : string;
  accountType : string
}.

(** [VanguardPosition._make(r)]: the cells of [r] bound to the fields in
    order; [TypeError] unless there are exactly five. *)
Definition VanguardPosition_make (r : Row) : result VanguardPosition :=
  match r with
  | [c0; c1; c2; c3; c4] => Ok (mk_VanguardPosition c0 c1 c2 c3 c4)
  | _ => Raise TypeError
  end.

(** [VanguardTransaction._make(r)]: [TypeError] unless there are exactly
    thirteen cells. *)
Definition VanguardTransaction_make (r : Row) : result VanguardTransaction :=
  match r with
  | [c0; c1; c2; c3; c4; c5; c6; c7; c8; c9; c10; c11; c12] =>
      Ok (mk_VanguardTransaction c0 c1 c2 c3 c4 c5 c6 c7 c8 c9 c10 c11 c12)
  | _ => Raise TypeError
  end.

(** The pattern [r'^.+\s\%\s.+$'], without its anchors. *)
Definition bond_name_pattern : Re.regex :=
  Re.Seq (Re.Plus Re.dot)
    (Re.Seq Re.space
       (Re.Seq (Re.Char "%") (Re.Seq Re.space (Re.Plus Re.dot)))).

(** The set and the table of [parseVanguardTransaction]. *)
Definition validTransactionTypes : gset string :=
  list_to_set ["Buy"; "Sell"; "Reinvestment"; "Corp Action (Redemption)";
               "Transfer (outgoing)"].

Definition flagsByTransactionType : gmap string TradeFlags :=
  list_to_map [("Buy", {[OPEN]});
               ("Sell", {[CLOSE]});
               ("Reinvestment", {[OPEN]} ∪ {[DRIP]});
               ("Corp Action (Redemption)", {[CLOSE]});
               ("Transfer (outgoing)", {[CLOSE]})].

(** [d[k]] on a dict *)
Definition dict_getitem {V} (d : gmap string V) (k : string) : result V :=
  match d !! k with
  | Some v => Ok v
  | None => Raise KeyError
  end.

(** The criteria of the two passes over the file. *)
Definition positionsCriterion : CSVSectionCriterion :=
  {| startSectionRowMatch := ["Account Number"];
     endSectionRowMatch := [];
     rowFilter := fun r => Py.slice 1 6 r |}.

Definition transactionsCriterion : CSVSectionCriterion :=
  {| startSectionRowMatch := ["Account Number"; "Trade Date"];
     endSectionRowMatch := [];
     rowFilter := fun r => Py.slice 1 (-1) r |}.

Section Adapter.

Context {collaborators : Collaborators}.

Definition mkStock (symbol : string) (currency : Currency) : result Instrument :=
  validated (Stock_valid symbol currency) (Stock symbol currency).

(** [Bond(name, currency=..., validateSymbol=False)] *)
Definition mkBond (symbol : string) (currency : Currency) : result Instrument :=
  validated (Bond_valid symbol currency) (Bond symbol currency).

Definition mkCash (currency : Currency) (quantity : Decimal) : result Cash :=
  validated (Cash_valid currency quantity) (mk_Cash currency quantity).

Definition mkTrade (date : datetime) (instrument : Instrument)
    (quantity : Decimal) (amount fees : Cash) (flags : TradeFlags)
    : result Trade :=
  validated (Trade_valid date instrument quantity amount fees flags)
    (mk_Trade date instrument quantity amount fees flags).

Definition mkPosition (instrument : Instrument) (quantity : Decimal)
    (costBasis : Cash) : result Position :=
  validated (Position_valid instrument quantity costBasis)
    (mk_Position instrument quantity costBasis).

Definition guessInstrumentForInvestmentName (name : string) : result Instrument :=
  if Re.match_anchored bond_name_pattern name
  then mkBond name USD
  else mkStock name USD.

Definition parseVanguardPosition (p : VanguardPosition)
    (activity : list Activity) : result Position :=
  instrument ←
    (if bool_decide (0 < String.length (vp_symbol p))
     then mkStock (vp_symbol p) USD
     else guessInstrumentForInvestmentName (vp_investmentName p));
  qty ← PyDecimal.of_string (vp_shares p);
  let realizedBasis :=
    realizedBasisForSymbol (instrument_symbol instrument) activity in
  match realizedBasis with
  | None => Raise AssertionError
  | Some basis => mkPosition instrument qty basis
  end.

Definition parseVanguardPositionAndActivity (vpb : VanguardPositionAndActivity)
    : result Position :=
  parseVanguardPosition (vpa_position vpb) (vpa_activity vpb).

Definition __parsePositions (csvfile : list Row) (activity : list Activity)
    (lenient : bool) : result (list Position) :=
  let sections := parseSectionsForCSV csvfile [positionsCriterion] in
  match sections with
  | [] => Ok []
  | section0 :: _ =>
      vanPositions ← mapM VanguardPosition_make (rows section0);
      let vanPosAndBases :=
        (fun pos => mk_VanguardPositionAndActivity pos activity)
          <$> vanPositions in
      lenientParse (Ok <$> vanPosAndBases)
        parseVanguardPositionAndActivity lenient
  end.

Definition forceParseVanguardTransaction (t : VanguardTransaction)
    (flags : TradeFlags) : result Trade :=
  instrument ←
    (if bool_decide (0 < String.length (symbol t))
     then mkStock (symbol t) USD
     else guessInstrumentForInvestmentName (investmentName t));
  totalFees ← PyDecimal.of_string (commissionFees t);
  amount ← PyDecimal.of_string (principalAmount t);
  shares ←
    (if bool_decide (transactionDescription t = "Redemption")
     then d ← PyDecimal.of_string (shares t); PyDecimal.mul_int d (-1)
     else PyDecimal.of_string (shares t));
  date ← strptime_mdY (tradeDate t);
  amount' ← mkCash USD amount;
  fees' ← mkCash USD totalFees;
  mkTrade date instrument shares amount' fees' flags.

Definition parseVanguardTransaction (t : VanguardTransaction)
    : result (option Trade) :=
  if bool_decide (transactionType t ∉ validTransactionTypes) then Ok None
  else
    flags ← dict_getitem flagsByTransactionType (transactionType t);
    trade ← forceParseVanguardTransaction t flags;
    mret (Some trade).

(** [filter(None, xs)] on a list of optional records *)
Definition filter_None {A} (xs : list (option A)) : list A := omap id xs.

Definition __parseTransactions (csvfile : list Row) (lenient : bool)
    : result (list Activity) :=
  let sections := parseSectionsForCSV csvfile [transactionsCriterion] in
  match sections with
  | [] => Ok []
  | section0 :: _ =>
      parsed ← lenientParse (VanguardTransaction_make <$> rows section0)
                  parseVanguardTransaction lenient;
      mret (ActivityTrade <$> filter_None parsed)
  end.

Definition parsePositionsAndActivity (csvfile : list Row) (lenient : bool)
    : result PositionsAndActivity :=
  activity ← __parseTransactions csvfile lenient;
  positions ← __parsePositions csvfile activity lenient;
  mret (mk_PositionsAndActivity positions activity).

End Adapter.

(* ===================================================================== *)
(** * Notions used in the statements *)
(* ===================================================================== *)

(** The instrument of a row, in the spec's words: an equity under the
    symbol when there is one, else a bond under the investment name when
    the name matches the bond pattern, else an equity under the name. *)
Definition resolved_instrument (symbol name : string) : Instrument :=
  if bool_decide (symbol <> "") then Stock symbol USD
  else if Re.match_anchored bond_name_pattern name then Bond name USD
  else Stock name USD.

(** The quantity of a trade, as [forceParseVanguardTransaction] computes it
    from the description and the parsed shares. *)
Definition signed_shares (description : string) (parsed : Decimal)
    : result Decimal :=
  if bool_decide (description = "Redemption")
  then PyDecimal.mul_int parsed (-1)
  else Ok parsed.

(** The filtered rows of the section of [c] in [csvfile]. *)
Definition section_rows (c : CSVSectionCriterion) (csvfile : list Row)
    : list Row :=
  rows (section_result (foldl (section_step c) NOT_STARTED csvfile)).

(** No row opens the section of the pattern [start]. *)
Definition no_row_matches (start : Row) (csvfile : list Row) : Prop :=
  Forall (fun row => row_matches start row = false) csvfile.

(** A row that the lenient row transformer gets past: its conversion
    returns, or fails with a conversion failure in lenient mode. *)
Definition passes {A B} (transform : A -> result B) (lenient : bool)
    (x : A) : Prop :=
  is_Ok (transform x) \/
  (lenient = true /\
   exists e, transform x = Raise e /\ is_conversion_failure e = true).

(** A text without newline. *)
Fixpoint no_newline (s : string) : bool :=
  match s with
  | EmptyString => true
  | String c r => negb (Ascii.eqb c Re.newline) && no_newline r
  end.

(** A name of the shape "X % Y": a non-empty text without newline, a
    whitespace character, a percent sign, a whitespace character, a
    non-empty text without newline; a final newline may follow. *)
Definition is_bond_name (name : string) : Prop :=
  exists (X : string) (a b : ascii) (Y tail : string),
    name = X ++ String a (String "%" (String b (Y ++ tail))) /\
    X <> "" /\ no_newline X = true /\
    Py.isspace a = true /\ Py.isspace b = true /\
    Y <> "" /\ no_newline Y = true /\
    (tail = "" \/ tail = String Re.newline "").

(** The exponent that the text of an exponent part denotes; no text, no
    exponent. *)
Definition exponent_text (text : string) (x : Z) : Prop :=
  (text = "" /\ x = 0%Z) \/
  exists (E : ascii) (sign digits : string),
    text = String E (sign ++ digits) /\
    (E = "e"%char \/ E = "E"%char) /\
    digits <> "" /\ Py.all_digits digits = true /\
    (((sign = "" \/ sign = "+") /\ x = Z.of_N (Py.int_of_digits digits)) \/
     (sign = "-" /\ x = (- Z.of_N (Py.int_of_digits digits))%Z)).

(** The number that an unsigned numeric text denotes: all the digits of
    its integer and fractional parts make the coefficient, and the
    exponent counts the fractional digits. *)
Definition number_text (text : string) (c : N) (e : Z) : Prop :=
  exists (intpart fracpart etext : string) (x : Z),
    (text = intpart ++ etext /\ fracpart = "" \/
     text = intpart ++ String "." (fracpart ++ etext)) /\
    Py.all_digits intpart = true /\ Py.all_digits fracpart = true /\
    intpart ++ fracpart <> "" /\
    exponent_text etext x /\
    c = Py.int_of_digits (intpart ++ fracpart) /\
    e = (x - Z.of_nat (String.length fracpart))%Z.

(** The finite decimal that a field denotes, blanks around it and
    underscores within it set aside. *)
Definition decimal_text (value : string) (sign : bool) (c : N) (e : Z)
    : Prop :=
  exists sign_text body : string,
    Py.remove_char "_" (Py.strip value) = sign_text ++ body /\
    ((sign_text = "-" /\ sign = true) \/
     ((sign_text = "" \/ sign_text = "+") /\ sign = false)) /\
    number_text body c e.

Section Auxiliary.

Context {collaborators : Collaborators}.

(** The validation that the constructor of an instrument applies. *)
Definition Instrument_valid (i : Instrument) : bool :=
  match i with
  | Stock s c => Stock_valid s c
  | Bond s c => Bond_valid s c
  end.

(** The transactions pass on the filtered rows of its section. *)
Definition transactions_of_rows (section : list Row) (lenient : bool)
    : result (list Activity) :=
  parsed ← lenientParse (VanguardTransaction_make <$> section)
              parseVanguardTransaction lenient;
  mret (ActivityTrade <$> filter_None parsed).

(** The positions pass on the filtered rows of its section. *)
Definition positions_of_rows (section : list Row) (activity : list Activity)
    (lenient : bool) : result (list Position) :=
  vanPositions ← mapM VanguardPosition_make section;
  lenientParse
    (Ok <$> ((fun pos => mk_VanguardPositionAndActivity pos activity)
               <$> vanPositions))
    parseVanguardPositionAndActivity lenient.

End Auxiliary.

(* ===================================================================== *)
(** * Example data *)
(* ===================================================================== *)

(** A stand-in for the collaborators, for the examples: symbols are not
    empty, quantities are finite, and the basis of a symbol is the amount
    of the latest trade in it, if there is one. *)
Definition example_collaborators : Collaborators := {|
  Stock_valid := fun s _ => bool_decide (s <> "");
  Bond_valid := fun s _ => bool_decide (s <> "");
  Cash_valid := fun _ d => PyDecimal.is_finite d;
  Trade_valid := fun _ _ q _ _ _ => PyDecimal.is_finite q;
  Position_valid := fun _ q _ => PyDecimal.is_finite q;
  realizedBasisForSymbol := fun sym acts =>
    head (omap (fun a =>
                  match a with
                  | ActivityTrade t =>
                      if bool_decide (instrument_symbol (trade_instrument t) = sym)
                      then Some (trade_amount t) else None
                  | ActivityDividendPayment _ => None
                  end) acts)
|}.

Definition example_transactions_header : Row :=
  ["Account Number"; "Trade Date"; "Settlement Date"; "Transaction Type";
   "Transaction Description"; "Investment Name"; "Symbol"; "Shares";
   "Share Price"; "Principal Amount"; "Commission Fees"; "Net Amount";
   "Accrued Interest"; "Account Type"; ""].

Definition example_buy_row : Row :=
  ["12345678"; "01/02/2020"; "01/03/2020"; "Buy"; "Buy";
   "VANGUARD TOTAL STOCK MARKET ETF"; "VTI"; "10"; "150.00"; "-1500.00";
   "0.00"; "-1500.00"; "0.0"; "CASH"; ""].

Definition example_fee_row : Row :=
  ["12345678"; "not a date"; "01/03/2020"; "Fee"; "Fee";
   "ACCOUNT SERVICE FEE"; ""; "n/a"; "n/a"; "n/a";
   "n/a"; "-20.00"; "0.0"; "CASH"; ""].

Definition example_redemption_row : Row :=
  ["12345678"; "3/15/2020"; "03/16/2020"; "Corp Action (Redemption)";
   "Redemption"; "US TREAS 2.5 % 2030"; ""; "10"; "100.00"; "1000.00";
   "0.00"; "1000.00"; "0.0"; "CASH"; ""].

Definition example_long_redemption_row : Row :=
  ["12345678"; "3/15/2020"; "03/16/2020"; "Corp Action (Redemption)";
   "Redemption"; "US TREAS 2.5 % 2030"; "";
   "10000000000000000000000000001"; "100.00"; "1000.00";
   "0.00"; "1000.00"; "0.0"; "CASH"; ""].

Definition example_positions_header : Row :=
  ["Account Number"; "Investment Name"; "Symbol"; "Shares"; "Share Price";
   "Total Value"; ""].

Definition example_position_row : Row :=
  ["12345678"; "VANGUARD TOTAL STOCK MARKET ETF"; "VTI"; "10"; "160.00";
   "1600.00"; ""].

Definition example_transaction (r : Row) : VanguardTransaction :=
  match VanguardTransaction_make (rowFilter transactionsCriterion r) with
  | Ok t => t
  | Raise _ => mk_VanguardTransaction "" "" "" "" "" "" "" "" "" "" "" "" ""
  end.

Definition example_buy_trade : Trade :=
  {| trade_date := mk_datetime 2020 1 2 0 0 0;
     trade_instrument := Stock "VTI" USD;
     trade_quantity := Finite false 10 0;
     trade_amount := mk_Cash USD (Finite true 150000 (-2));
     trade_fees := mk_Cash USD (Finite false 0 (-2));
     trade_flags := {[OPEN]} |}.

Definition example_redemption_trade : Trade :=
  {| trade_date := mk_datetime 2020 3 15 0 0 0;
     trade_instrument := Bond "US TREAS 2.5 % 2030" USD;
     trade_quantity := Finite true 10 0;
     trade_amount := mk_Cash USD (Finite false 100000 (-2));
     trade_fees := mk_Cash USD (Finite false 0 (-2));
     trade_flags := {[CLOSE]} |}.

(* ===================================================================== *)
(** * tests/helpers.py *)
(* ===================================================================== *)

Module PyStr.

(** [s.split(sep)] for a one-character [sep]: the texts between the
    separators, in order; a text without separator is its own single
    field, the empty text included. *)
Fixpoint split (sep : ascii) (s : string) : list string :=
  match s with
  | EmptyString => [EmptyString]
  | String c r =>
      if Ascii.eqb c sep then EmptyString :: split sep r
      else match split sep r with
           | field :: fields => String c field :: fields
           | [] => [String c EmptyString]
           end
  end.

(** [sep.join(fields)] for a one-character [sep] *)
Fixpoint join (sep : ascii) (fields : list string) : string :=
  match fields with
  | [] => EmptyString
  | [field] => field
  | field :: rest => field ++ String sep (join sep rest)
  end.

(** [s.count(c)] for a one-character [c] *)
Fixpoint count (c : ascii) (s : string) : nat :=
  match s with
  | EmptyString => 0
  | String d r => (if Ascii.eqb d c then 1 else 0) + count c r
  end.

End PyStr.

Definition splitAndStripCSVString (s : string) : list string :=
  Py.strip <$> PyStr.split "," s.

(* ===================================================================== *)
(** * Further notions used in the statements *)
(* ===================================================================== *)

(** The first and the last character of a text are no whitespace. *)
Definition no_space_at_ends (s : string) : Prop :=
  Py.lstrip s = s /\ Py.rstrip s = s.

(** The key under which the basis of a row is looked up: the symbol when
    there is one, else the investment name. *)
Definition lookup_symbol (symbol name : string) : string :=
  if bool_decide (symbol <> "") then symbol else name.

Definition instrument_currency (i : Instrument) : Currency :=
  match i with Stock _ c | Bond _ c => c end.

(** Two transactions that agree on the fields read by the conversion. *)
Definition same_read_fields (t t' : VanguardTransaction) : Prop :=
  tradeDate t = tradeDate t' /\
  transactionDescription t = transactionDescription t' /\
  investmentName t = investmentName t' /\
  symbol t = symbol t' /\
  shares t = shares t' /\
  principalAmount t = principalAmount t' /\
  commissionFees t = commissionFees t'.

(** The flag combinations of the table of [parseVanguardTransaction]. *)
Definition table_flags : list TradeFlags :=
  [{[OPEN]}; {[CLOSE]}; {[OPEN]} ∪ {[DRIP]}].

Section FurtherNotions.

Context {collaborators : Collaborators}.

(** The record that one filtered row of the transactions section adds to
    the activity: the trade it converts to, if it does. *)
Definition activity_of_row (r : Row) : option Activity :=
  match VanguardTransaction_make r with
  | Ok t =>
      match parseVanguardTransaction t with
      | Ok (Some trade) => Some (ActivityTrade trade)
      | _ => None
      end
  | Raise _ => None
  end.

(** The position that one filtered row of the positions section adds to
    the positions: the one it converts to, if it does. *)
Definition position_of_row (activity : list Activity) (r : Row)
    : option Position :=
  match VanguardPosition_make r with
  | Ok p =>
      match parseVanguardPosition p activity with
      | Ok pos => Some pos
      | Raise _ => None
      end
  | Raise _ => None
  end.

End FurtherNotions.

(* ===================================================================== *)
(** * Further example data *)
(* ===================================================================== *)

(** A sale whose fees are no decimal text. *)
Definition example_bad_row : Row :=
  ["12345678"; "02/03/2020"; "02/04/2020"; "Sell"; "Sell"; "ABC Corp"; "";
   "10"; "12.00"; "120.00"; "$5"; "115.00"; "0.0"; "CASH"; ""].

(** A redemption whose shares are beyond the exponents of the context. *)
Definition example_overflow_row : Row :=
  ["12345678"; "3/15/2020"; "03/16/2020"; "Corp Action (Redemption)";
   "Redemption"; "US TREAS 2.5 % 2030"; ""; "1E+1000000"; "100.00";
   "1000.00"; "0.00"; "1000.00"; "0.0"; "CASH"; ""].

(** The buy of the examples, with other text in the fields that the
    conversion does not read. *)
Definition example_buy_row_unread_changed : Row :=
  ["12345678"; "01/02/2020"; "never"; "Buy"; "Buy";
   "VANGUARD TOTAL STOCK MARKET ETF"; "VTI"; "10"; "?"; "-1500.00";
   "0.00"; "not a number"; "--"; "MARGIN"; ""].

(** The buy of the examples under another investment name. *)
Definition example_buy_row_renamed : Row :=
  ["12345678"; "01/02/2020"; "01/03/2020"; "Buy"; "Buy";
   "TOTAL STOCK MKT 5 % ETF"; "VTI"; "10"; "150.00"; "-1500.00";
   "0.00"; "-1500.00"; "0.0"; "CASH"; ""].

(** The buy of the examples entered as a sale. *)
Definition example_buy_row_as_sale : Row :=
  ["12345678"; "01/02/2020"; "01/03/2020"; "Sell"; "Buy";
   "VANGUARD TOTAL STOCK MARKET ETF"; "VTI"; "10"; "150.00"; "-1500.00";
   "0.00"; "-1500.00"; "0.0"; "CASH"; ""].

Definition example_sale_trade : Trade :=
  {| trade_date := mk_datetime 2020 1 2 0 0 0;
     trade_instrument := Stock "VTI" USD;
     trade_quantity := Finite false 10 0;
     trade_amount := mk_Cash USD (Finite true 150000 (-2));
     trade_fees := mk_Cash USD (Finite false 0 (-2));
     trade_flags := {[CLOSE]} |}.

Definition example_position : VanguardPosition :=
  mk_VanguardPosition "VANGUARD TOTAL STOCK MARKET ETF" "VTI" "10" "160.00"
    "1600.00".

Definition example_converted_position : Position :=
  mk_Position (Stock "VTI" USD) (Finite false 10 0)
    (mk_Cash USD (Finite true 150000 (-2))).

(** A position in a holding that the activity of the examples never
    traded. *)
Definition example_position_row_without_basis : Row :=
  ["12345678"; "ABC Corp"; ""; "5"; "12.00"; "60.00"; ""].

Definition example_position_without_basis : VanguardPosition :=
  mk_VanguardPosition "ABC Corp" "" "5" "12.00" "60.00".

(* ===================================================================== *)
(** * Properties *)
(* ===================================================================== *)

(** ** Fallible computations *)

Lemma bind_Ok {A B} (m : result A) (f : A -> result B) (b : B) :
  m ≫= f = Ok b <-> exists a, m = Ok a /\ f a = Ok b.
Proof.
  destruct m as [a|e]; simpl.
  - split; [intros H; exists a; auto | intros (a' & [= <-] & H); exact H].
  - split; [discriminate | intros (a' & [=] & _)].
Qed.

Lemma bind_Raise {A B} (m : result A) (f : A -> result B) (e : exn) :
  m ≫= f = Raise e <->
  m = Raise e \/ exists a, m = Ok a /\ f a = Raise e.
Proof.
  destruct m as [a|e']; simpl.
  - split; [intros H; right; exists a; auto |].
    intros [[=] | (a' & [= <-] & H)]; exact H.
  - split; [intros [= <-]; left; reflexivity |].
    intros [[= ->] | (a' & [=] & _)]; reflexivity.
Qed.

Lemma validated_Ok {A} (valid : bool) (a b : A) :
  validated valid a = Ok b <-> valid = true /\ b = a.
Proof.
  unfold validated. destruct valid; split.
  - intros [= <-]. auto.
  - intros [_ ->]. reflexivity.
  - discriminate.
  - intros [[=] _].
Qed.

Lemma validated_Raise {A} (valid : bool) (a : A) (e : exn) :
  validated valid a = Raise e -> e = ValueError.
Proof. unfold validated. destruct valid; [discriminate | intros [= <-]; reflexivity]. Qed.

(** ** Slices and record construction *)

Lemma slice_1_neg1_lookup {A} (r : list A) (i : nat) :
  Py.slice 1 (-1) r !! i =
  if decide (S (S i) < length r) then r !! S i else None.
Proof.
  unfold Py.slice, Py.slice_bound. cbn [Z.ltb Z.compare].
  destruct r as [|a r]; [done|].
  replace (Z.to_nat (1 `min` Z.of_nat (length (a :: r)))) with 1
    by (cbn [length]; lia).
  replace (Z.to_nat _) with (length r - 1) by (cbn [length]; lia).
  cbn [drop length]. rewrite drop_0.
  case_decide.
  - rewrite lookup_take_lt by lia. reflexivity.
  - rewrite lookup_take_ge by lia. reflexivity.
Qed.

Lemma slice_1_6_lookup {A} (r : list A) (i : nat) :
  Py.slice 1 6 r !! i = if decide (i < 5) then r !! S i else None.
Proof.
  unfold Py.slice, Py.slice_bound. cbn [Z.ltb Z.compare].
  destruct r as [|a r]; [by case_decide|].
  replace (Z.to_nat (1 `min` Z.of_nat (length (a :: r)))) with 1
    by (cbn [length]; lia).
  replace (Z.to_nat _) with (length r `min` 5) by (cbn [length]; lia).
  cbn [drop length]. rewrite drop_0.
  case_decide.
  - destruct (decide (i < length r)).
    + rewrite lookup_take_lt by lia. reflexivity.
    + rewrite lookup_take_ge by lia. symmetry. apply lookup_ge_None. cbn [length]. lia.
  - rewrite lookup_take_ge by lia. reflexivity.
Qed.

Lemma VanguardTransaction_make_arity (r : Row) :
  is_Ok (VanguardTransaction_make r) <-> length r = 13.
Proof.
  split.
  - intros [x H].
    do 13 (destruct r as [|? r]; [discriminate H|]).
    destruct r; [reflexivity | discriminate H].
  - intros H.
    do 13 (destruct r as [|? r]; [discriminate H|]).
    destruct r; [eexists; reflexivity | discriminate H].
Qed.

Lemma VanguardPosition_make_arity (r : Row) :
  is_Ok (VanguardPosition_make r) <-> length r = 5.
Proof.
  split.
  - intros [x H].
    do 5 (destruct r as [|? r]; [discriminate H|]).
    destruct r; [reflexivity | discriminate H].
  - intros H.
    do 5 (destruct r as [|? r]; [discriminate H|]).
    destruct r; [eexists; reflexivity | discriminate H].
Qed.

Lemma length_slice_1_neg1 {A} (r : list A) :
  length (Py.slice 1 (-1) r) = length r - 2.
Proof.
  unfold Py.slice, Py.slice_bound. simpl.
  rewrite length_take, length_drop. lia.
Qed.

Lemma length_slice_1_6 {A} (r : list A) :
  length (Py.slice 1 6 r) = (length r - 1) `min` 5.
Proof.
  unfold Py.slice, Py.slice_bound. simpl.
  rewrite length_take, length_drop. lia.
Qed.

(** C7: the filter of the transactions criterion keeps, of a raw row,
    exactly the cells between the first and the last one, in order, and
    [_make] binds them in order to the thirteen fields of a
    [VanguardTransaction]; the filter of the positions criterion keeps the
    cells at indices 1 to 5, and [_make] binds them in order to the five
    fields of a [VanguardPosition].  Construction of either record succeeds
    exactly when the filtered row has thirteen, respectively five, cells. *)
Theorem C7_row_filters_and_record_arity :
  (forall (r : Row) (i : nat),
      rowFilter transactionsCriterion r !! i =
      if decide (S (S i) < length r) then r !! S i else None) /\
  (forall first c1 c2 c3 c4 c5 c6 c7 c8 c9 c10 c11 c12 c13 last,
      VanguardTransaction_make
        (rowFilter transactionsCriterion
           [first; c1; c2; c3; c4; c5; c6; c7; c8; c9; c10; c11; c12; c13;
            last]) =
      Ok {| tradeDate := c1; settlementDate := c2; transactionType := c3;
            transactionDescription := c4; investmentName := c5;
            symbol := c6; shares := c7; sharePrice := c8;
            principalAmount := c9; commissionFees := c10; netAmount := c11;
            accruedInterest := c12; accountType := c13 |}) /\
  (forall (r : Row) (i : nat),
      rowFilter positionsCriterion r !! i =
      if decide (i < 5) then r !! S i else None) /\
  (forall first c1 c2 c3 c4 c5 rest,
      VanguardPosition_make
        (rowFilter positionsCriterion
           (first :: c1 :: c2 :: c3 :: c4 :: c5 :: rest)) =
      Ok {| vp_investmentName := c1; vp_symbol := c2; vp_shares := c3;
            vp_sharePrice := c4; vp_totalValue := c5 |}) /\
  (forall r : Row,
      is_Ok (VanguardTransaction_make (rowFilter transactionsCriterion r)) <->
      length (rowFilter transactionsCriterion r) = 13) /\
  (forall r : Row,
      is_Ok (VanguardPosition_make (rowFilter positionsCriterion r)) <->
      length (rowFilter positionsCriterion r) = 5) /\
  (forall r : Row,
      length (rowFilter transactionsCriterion r) = 13 <-> length r = 15) /\
  (forall r : Row,
      length (rowFilter positionsCriterion r) = 5 <-> 6 <= length r).
Proof.
  repeat split.
  - apply slice_1_neg1_lookup.
  - apply slice_1_6_lookup.
  - intros first c1 c2 c3 c4 c5 rest. cbn [rowFilter positionsCriterion].
    unfold Py.slice, Py.slice_bound. cbn [Z.ltb Z.compare length].
    replace (Z.to_nat (_ - _)) with 5 by lia.
    replace (Z.to_nat (1 `min` _)) with 1 by lia.
    reflexivity.
  - apply VanguardTransaction_make_arity.
  - apply VanguardTransaction_make_arity.
  - apply VanguardPosition_make_arity.
  - apply VanguardPosition_make_arity.
  - simpl. rewrite length_slice_1_neg1. lia.
  - simpl. rewrite length_slice_1_neg1. lia.
  - simpl. rewrite length_slice_1_6. lia.
  - simpl. rewrite length_slice_1_6. lia.
Qed.

(** ** Conversion of one row *)

Section AdapterFacts.

Context {collaborators : Collaborators}.

Lemma length_pos_nonempty (s : string) : 0 < String.length s <-> s <> "".
Proof. destruct s; simpl; split; (lia || congruence || auto with lia). Qed.

(** The instrument that either conversion constructs. *)
Lemma instrument_resolution (symbol name : string) :
  (if bool_decide (0 < String.length symbol)
   then mkStock symbol USD
   else guessInstrumentForInvestmentName name) =
  validated (Instrument_valid (resolved_instrument symbol name))
    (resolved_instrument symbol name).
Proof.
  unfold resolved_instrument, guessInstrumentForInvestmentName, mkStock, mkBond.
  rewrite (bool_decide_ext _ _ (length_pos_nonempty symbol)).
  destruct (bool_decide (symbol <> "")); [reflexivity|].
  destruct (Re.match_anchored bond_name_pattern name); reflexivity.
Qed.

Lemma forceParse_unfold (t : VanguardTransaction) (flags : TradeFlags) :
  forceParseVanguardTransaction t flags =
  (instrument ← validated
       (Instrument_valid (resolved_instrument (symbol t) (investmentName t)))
       (resolved_instrument (symbol t) (investmentName t));
   totalFees ← PyDecimal.of_string (commissionFees t);
   amount ← PyDecimal.of_string (principalAmount t);
   quantity ← (parsed ← PyDecimal.of_string (shares t);
               signed_shares (transactionDescription t) parsed);
   date ← strptime_mdY (tradeDate t);
   amount' ← mkCash USD amount;
   fees' ← mkCash USD totalFees;
   mkTrade date instrument quantity amount' fees' flags).
Proof.
  unfold forceParseVanguardTransaction, signed_shares.
  rewrite instrument_resolution.
  destruct (bool_decide (transactionDescription t = "Redemption")).
  - reflexivity.
  - destruct (PyDecimal.of_string (shares t));
      destruct (validated _ _); simpl; try reflexivity;
      destruct (PyDecimal.of_string (commissionFees t)); simpl; try reflexivity;
      destruct (PyDecimal.of_string (principalAmount t)); reflexivity.
Qed.

(** What a successful conversion of a transaction has gone through, and
    the trade it returns. *)
Lemma forceParse_Ok (t : VanguardTransaction) (flags : TradeFlags)
    (trade : Trade) :
  forceParseVanguardTransaction t flags = Ok trade <->
  exists totalFees amount parsed quantity date,
    let instrument := resolved_instrument (symbol t) (investmentName t) in
    Instrument_valid instrument = true /\
    PyDecimal.of_string (commissionFees t) = Ok totalFees /\
    PyDecimal.of_string (principalAmount t) = Ok amount /\
    PyDecimal.of_string (shares t) = Ok parsed /\
    signed_shares (transactionDescription t) parsed = Ok quantity /\
    strptime_mdY (tradeDate t) = Ok date /\
    Cash_valid USD amount = true /\
    Cash_valid USD totalFees = true /\
    Trade_valid date instrument quantity (mk_Cash USD amount)
      (mk_Cash USD totalFees) flags = true /\
    trade = mk_Trade date instrument quantity (mk_Cash USD amount)
              (mk_Cash USD totalFees) flags.
Proof.
  rewrite forceParse_unfold. unfold mkCash, mkTrade. split.
  - intros H.
    apply bind_Ok in H as (i & Hi%validated_Ok & H). destruct Hi as [Hv ->].
    apply bind_Ok in H as (fees & Hfees & H).
    apply bind_Ok in H as (amount & Hamount & H).
    apply bind_Ok in H as (q & Hq & H).
    apply bind_Ok in Hq as (parsed & Hparsed & Hq).
    apply bind_Ok in H as (date & Hdate & H).
    apply bind_Ok in H as (a' & Ha'%validated_Ok & H). destruct Ha' as [Hva ->].
    apply bind_Ok in H as (f' & Hf'%validated_Ok & H). destruct Hf' as [Hvf ->].
    apply validated_Ok in H as [Hvt ->].
    exists fees, amount, parsed, q, date. cbn zeta. tauto.
  - intros (fees & amount & parsed & q & date & H). cbn zeta in H.
    destruct H as (Hv & -> & -> & -> & Hq & -> & Hva & Hvf & Hvt & ->).
    rewrite Hv. simpl. rewrite Hq. simpl. rewrite Hva, Hvf. simpl.
    rewrite Hvt. reflexivity.
Qed.

Lemma parseVanguardPosition_unfold (p : VanguardPosition)
    (activity : list Activity) :
  parseVanguardPosition p activity =
  (instrument ← validated
       (Instrument_valid (resolved_instrument (vp_symbol p) (vp_investmentName p)))
       (resolved_instrument (vp_symbol p) (vp_investmentName p));
   qty ← PyDecimal.of_string (vp_shares p);
   match realizedBasisForSymbol (instrument_symbol instrument) activity with
   | None => Raise AssertionError
   | Some basis => mkPosition instrument qty basis
   end).
Proof.
  unfold parseVanguardPosition. rewrite instrument_resolution. reflexivity.
Qed.

(** The valid types are exactly the keys of the table: indexing the table
    by a valid type never raises. *)
Lemma valid_type_has_flags (ty : string) :
  ty ∈ validTransactionTypes <->
  exists flags, flagsByTransactionType !! ty = Some flags.
Proof.
  unfold validTransactionTypes. rewrite elem_of_list_to_set.
  rewrite !elem_of_cons, elem_of_nil. split.
  - intros [->|[->|[->|[->|[->|[]]]]]]; eexists; vm_compute; reflexivity.
  - intros [flags H]. unfold flagsByTransactionType in H.
    cbn [list_to_map foldr uncurry] in H.
    repeat (apply lookup_insert_Some in H as [[<- _]|[_ H]]; [tauto|]).
    rewrite lookup_empty in H. discriminate.
Qed.

Lemma parseVanguardTransaction_unrecognized (t : VanguardTransaction) :
  transactionType t ∉ validTransactionTypes ->
  parseVanguardTransaction t = Ok None.
Proof.
  intros H. unfold parseVanguardTransaction.
  rewrite bool_decide_eq_true_2 by exact H. reflexivity.
Qed.

Lemma parseVanguardTransaction_recognized (t : VanguardTransaction)
    (flags : TradeFlags) :
  flagsByTransactionType !! transactionType t = Some flags ->
  parseVanguardTransaction t =
  (trade ← forceParseVanguardTransaction t flags; mret (Some trade)).
Proof.
  intros H. unfold parseVanguardTransaction.
  rewrite bool_decide_eq_false_2.
  - unfold dict_getitem. rewrite H. reflexivity.
  - intros Hn. apply Hn. apply valid_type_has_flags. eauto.
Qed.

End AdapterFacts.

(** ** The scan of one criterion *)

Lemma scan_single (c : CSVSectionCriterion) (csvfile : list Row)
    (st : SectionState) :
  foldl (fun sts row => zip_with (fun c st => section_step c st row) [c] sts)
    [st] csvfile =
  [foldl (section_step c) st csvfile].
Proof.
  revert st. induction csvfile as [|row csvfile IH]; intros st.
  - reflexivity.
  - simpl. apply IH.
Qed.

Lemma parseSectionsForCSV_single (c : CSVSectionCriterion)
    (csvfile : list Row) :
  parseSectionsForCSV csvfile [c] =
  [mk_CSVSectionResult (section_rows c csvfile)].
Proof.
  unfold parseSectionsForCSV, section_rows. cbn [length replicate].
  rewrite scan_single. cbn [fmap list_fmap].
  destruct (section_result _). reflexivity.
Qed.

Lemma scan_not_started (c : CSVSectionCriterion) (csvfile : list Row) :
  no_row_matches (startSectionRowMatch c) csvfile ->
  foldl (section_step c) NOT_STARTED csvfile = NOT_STARTED.
Proof.
  induction 1 as [|row csvfile Hrow _ IH]; simpl.
  - reflexivity.
  - rewrite Hrow. exact IH.
Qed.

Lemma scan_in_section (c : CSVSectionCriterion) (csvfile acc : list Row) :
  endSectionRowMatch c = [] ->
  foldl (section_step c) (IN_SECTION acc) csvfile =
  IN_SECTION (reverse (rowFilter c <$> csvfile) ++ acc).
Proof.
  intros Hend. revert acc.
  induction csvfile as [|row csvfile IH]; intros acc; simpl.
  - reflexivity.
  - rewrite Hend. simpl. rewrite IH, reverse_cons, <- app_assoc. reflexivity.
Qed.

Lemma section_rows_absent (c : CSVSectionCriterion) (csvfile : list Row) :
  no_row_matches (startSectionRowMatch c) csvfile ->
  section_rows c csvfile = [].
Proof.
  intros H. unfold section_rows. rewrite scan_not_started by exact H.
  reflexivity.
Qed.

(** A section without end pattern that opens at [header] holds every later
    row of the file, filtered. *)
Lemma section_rows_from_header (c : CSVSectionCriterion)
    (before : list Row) (header : Row) (after : list Row) :
  endSectionRowMatch c = [] ->
  no_row_matches (startSectionRowMatch c) before ->
  row_matches (startSectionRowMatch c) header = true ->
  section_rows c (before ++ header :: after) = rowFilter c <$> after.
Proof.
  intros Hend Hbefore Hheader. unfold section_rows.
  rewrite foldl_app, scan_not_started by exact Hbefore.
  simpl. rewrite Hheader, scan_in_section by exact Hend.
  simpl. rewrite app_nil_r, reverse_involutive. reflexivity.
Qed.

(** ** The two passes over the rows of a section *)

Section Passes.

Context {collaborators : Collaborators}.

Lemma parseTransactions_section (csvfile : list Row) (lenient : bool) :
  __parseTransactions csvfile lenient =
  transactions_of_rows (section_rows transactionsCriterion csvfile) lenient.
Proof.
  unfold __parseTransactions. rewrite parseSectionsForCSV_single. reflexivity.
Qed.

Lemma parsePositions_section (csvfile : list Row) (activity : list Activity)
    (lenient : bool) :
  __parsePositions csvfile activity lenient =
  positions_of_rows (section_rows positionsCriterion csvfile) activity lenient.
Proof.
  unfold __parsePositions. rewrite parseSectionsForCSV_single. reflexivity.
Qed.

(** How the transactions pass treats its first row. *)
Lemma transactions_of_rows_cons (r : Row) (section : list Row)
    (lenient : bool) :
  transactions_of_rows (r :: section) lenient =
  match VanguardTransaction_make r with
  | Raise e => Raise e
  | Ok t =>
      match parseVanguardTransaction t with
      | Ok None => transactions_of_rows section lenient
      | Ok (Some trade) =>
          rest ← transactions_of_rows section lenient;
          mret (ActivityTrade trade :: rest)
      | Raise e =>
          if lenient && is_conversion_failure e
          then transactions_of_rows section lenient
          else Raise e
      end
  end.
Proof.
  unfold transactions_of_rows. simpl.
  destruct (VanguardTransaction_make r) as [t|e]; [|reflexivity].
  destruct (parseVanguardTransaction t) as [[trade|]|e]; simpl.
  - destruct (lenientParse _ _ _); reflexivity.
  - destruct (lenientParse _ _ _); reflexivity.
  - destruct (lenient && is_conversion_failure e); reflexivity.
Qed.

Lemma transactions_of_rows_app (s1 s2 s2' : list Row) (lenient : bool) :
  transactions_of_rows s2 lenient = transactions_of_rows s2' lenient ->
  transactions_of_rows (s1 ++ s2) lenient =
  transactions_of_rows (s1 ++ s2') lenient.
Proof.
  intros H. induction s1 as [|r s1 IH]; [exact H|].
  simpl. rewrite !transactions_of_rows_cons, IH. reflexivity.
Qed.

Lemma transactions_of_rows_all_trades (section : list Row) (lenient : bool)
    (acts : list Activity) :
  transactions_of_rows section lenient = Ok acts -> Forall is_Trade acts.
Proof.
  unfold transactions_of_rows. intros H.
  apply bind_Ok in H as (parsed & _ & [= <-]).
  apply Forall_fmap, Forall_true. intros trade. exact I.
Qed.

End Passes.

(** ** Examples *)

Lemma example_buy_parses :
  @parseVanguardTransaction example_collaborators
    (example_transaction example_buy_row) = Ok (Some example_buy_trade).
Proof. vm_compute. reflexivity. Qed.

Lemma example_redemption_parses :
  @parseVanguardTransaction example_collaborators
    (example_transaction example_redemption_row) =
  Ok (Some example_redemption_trade).
Proof. vm_compute. reflexivity. Qed.

Lemma example_file_transactions :
  @__parseTransactions example_collaborators
    [example_transactions_header; example_buy_row; example_fee_row;
     example_redemption_row] false =
  Ok [ActivityTrade example_buy_trade; ActivityTrade example_redemption_trade].
Proof. vm_compute. reflexivity. Qed.

(** ** Claims about the transactions pass *)

Section TransactionClaims.

Context {collaborators : Collaborators}.

(** C4: a transaction whose type is none of the five recognized ones
    converts to [None] whatever its other fields hold, without raising; in
    either mode the activity list of a file is the one of the file without
    that row. *)
Theorem C4_unrecognized_type_is_skipped :
  (forall t : VanguardTransaction,
      transactionType t ∉ validTransactionTypes ->
      parseVanguardTransaction t = Ok None) /\
  (forall (lenient : bool) (before : list Row) (header : Row)
          (rows1 : list Row) (raw : Row) (rows2 : list Row)
          (t : VanguardTransaction),
      no_row_matches (startSectionRowMatch transactionsCriterion) before ->
      row_matches (startSectionRowMatch transactionsCriterion) header = true ->
      VanguardTransaction_make (rowFilter transactionsCriterion raw) = Ok t ->
      transactionType t ∉ validTransactionTypes ->
      __parseTransactions (before ++ header :: rows1 ++ raw :: rows2) lenient =
      __parseTransactions (before ++ header :: rows1 ++ rows2) lenient).
Proof.
  split; [exact parseVanguardTransaction_unrecognized|].
  intros lenient before header rows1 raw rows2 t Hbefore Hheader Hmake Htype.
  rewrite !parseTransactions_section.
  rewrite !section_rows_from_header by (reflexivity || assumption).
  rewrite !fmap_app, fmap_cons.
  apply transactions_of_rows_app.
  rewrite transactions_of_rows_cons, Hmake.
  rewrite parseVanguardTransaction_unrecognized by exact Htype.
  reflexivity.
Qed.

(** C5: the flags of the trade of a recognized transaction are the entry of
    its type in the table: OPEN for 'Buy', CLOSE for 'Sell', OPEN with DRIP
    for 'Reinvestment', CLOSE for 'Corp Action (Redemption)' and for
    'Transfer (outgoing)'.  A 'Buy' row whose conversion does not fail
    yields a trade, never [None], with the flag OPEN, and a section of that
    one row yields exactly that one trade. *)
Theorem C5_flags_from_table :
  flagsByTransactionType !! "Buy" = Some {[OPEN]} /\
  flagsByTransactionType !! "Sell" = Some {[CLOSE]} /\
  flagsByTransactionType !! "Reinvestment" = Some ({[OPEN]} ∪ {[DRIP]}) /\
  flagsByTransactionType !! "Corp Action (Redemption)" = Some {[CLOSE]} /\
  flagsByTransactionType !! "Transfer (outgoing)" = Some {[CLOSE]} /\
  (forall (t : VanguardTransaction) (trade : Trade),
      parseVanguardTransaction t = Ok (Some trade) ->
      flagsByTransactionType !! transactionType t = Some (trade_flags trade)) /\
  (forall (t : VanguardTransaction) (r : option Trade),
      transactionType t = "Buy" ->
      parseVanguardTransaction t = Ok r ->
      exists trade, r = Some trade /\ trade_flags trade = {[OPEN]}) /\
  (forall (lenient : bool) (before : list Row) (header raw : Row)
          (t : VanguardTransaction) (r : option Trade),
      no_row_matches (startSectionRowMatch transactionsCriterion) before ->
      row_matches (startSectionRowMatch transactionsCriterion) header = true ->
      VanguardTransaction_make (rowFilter transactionsCriterion raw) = Ok t ->
      transactionType t = "Buy" ->
      parseVanguardTransaction t = Ok r ->
      exists trade,
        __parseTransactions (before ++ [header; raw]) lenient =
          Ok [ActivityTrade trade] /\
        trade_flags trade = {[OPEN]}).
Proof.
  assert (Hflags : forall (t : VanguardTransaction) (trade : Trade),
             parseVanguardTransaction t = Ok (Some trade) ->
             flagsByTransactionType !! transactionType t =
               Some (trade_flags trade)).
  { intros t trade H.
    destruct (decide (transactionType t ∈ validTransactionTypes)) as [Hin|Hout].
    - apply valid_type_has_flags in Hin as [flags Hin].
      rewrite (parseVanguardTransaction_recognized _ _ Hin) in H.
      apply bind_Ok in H as (trade' & Hforce & [= <-]).
      apply forceParse_Ok in Hforce
        as (? & ? & ? & ? & ? & _ & _ & _ & _ & _ & _ & _ & _ & _ & ->).
      exact Hin.
    - rewrite parseVanguardTransaction_unrecognized in H by exact Hout.
      discriminate. }
  assert (Hbuy : forall (t : VanguardTransaction) (r : option Trade),
             transactionType t = "Buy" ->
             parseVanguardTransaction t = Ok r ->
             exists trade, r = Some trade /\ trade_flags trade = {[OPEN]}).
  { intros t r Hty H.
    assert (Hin : flagsByTransactionType !! transactionType t = Some {[OPEN]})
      by (rewrite Hty; vm_compute; reflexivity).
    pose proof H as H'.
    rewrite (parseVanguardTransaction_recognized _ _ Hin) in H'.
    apply bind_Ok in H' as (trade & _ & [= <-]).
    exists trade. split; [reflexivity|].
    apply Hflags in H. rewrite Hin in H. congruence. }
  do 5 (split; [vm_compute; reflexivity|]).
  split; [exact Hflags|]. split; [exact Hbuy|].
  intros lenient before header raw t r Hbefore Hheader Hmake Hty H.
  destruct (Hbuy t r Hty H) as (trade & -> & Hopen).
  exists trade. split; [|exact Hopen].
  rewrite parseTransactions_section.
  rewrite section_rows_from_header by (reflexivity || assumption).
  cbn [fmap list_fmap]. rewrite transactions_of_rows_cons, Hmake, H.
  reflexivity.
Qed.

(** C10: every record of the activity list that the transactions pass, and
    so the top-level parse, returns is a [Trade]; none is a
    [DividendPayment]. *)
Theorem C10_activity_is_trades_only :
  forall (csvfile : list Row) (lenient : bool),
    (forall acts : list Activity,
        __parseTransactions csvfile lenient = Ok acts ->
        Forall is_Trade acts) /\
    (forall pa : PositionsAndActivity,
        parsePositionsAndActivity csvfile lenient = Ok pa ->
        Forall is_Trade (activity pa)).
Proof.
  intros csvfile lenient.
  assert (H1 : forall acts : list Activity,
             __parseTransactions csvfile lenient = Ok acts ->
             Forall is_Trade acts).
  { intros acts H. rewrite parseTransactions_section in H.
    exact (transactions_of_rows_all_trades _ _ _ H). }
  split; [exact H1|].
  intros pa H. unfold parsePositionsAndActivity in H.
  apply bind_Ok in H as (acts & Hacts & H).
  apply bind_Ok in H as (ps & _ & [= <-]).
  simpl. exact (H1 _ Hacts).
Qed.

End TransactionClaims.

Lemma not_valid_type_by_computation (ty : string) :
  bool_decide (ty ∈ validTransactionTypes) = false ->
  ty ∉ validTransactionTypes.
Proof. intros H. apply bool_decide_eq_false in H. exact H. Defined.

Lemma C4_witness :
  @parseVanguardTransaction example_collaborators
    (example_transaction example_fee_row) = Ok None /\
  @__parseTransactions example_collaborators
    [example_transactions_header; example_buy_row; example_fee_row;
     example_redemption_row] true =
  @__parseTransactions example_collaborators
    [example_transactions_header; example_buy_row; example_redemption_row]
    true.
Proof.
  destruct (@C4_unrecognized_type_is_skipped example_collaborators)
    as [Hrow Hfile].
  split.
  - apply Hrow. apply not_valid_type_by_computation. vm_compute. reflexivity.
  - apply (Hfile true [] example_transactions_header [example_buy_row]
             example_fee_row [example_redemption_row]
             (example_transaction example_fee_row)).
    + constructor.
    + vm_compute. reflexivity.
    + vm_compute. reflexivity.
    + apply not_valid_type_by_computation. vm_compute. reflexivity.
Defined.

Lemma C5_witness :
  flagsByTransactionType !! "Buy" = Some (trade_flags example_buy_trade) /\
  exists trade,
    @__parseTransactions example_collaborators
      ([] ++ [example_transactions_header; example_buy_row]) false =
      Ok [ActivityTrade trade] /\
    trade_flags trade = {[OPEN]}.
Proof.
  destruct (@C5_flags_from_table example_collaborators)
    as (_ & _ & _ & _ & _ & Htable & _ & Hfile).
  split.
  - apply (Htable (example_transaction example_buy_row) example_buy_trade).
    vm_compute. reflexivity.
  - apply (Hfile false [] example_transactions_header example_buy_row
             (example_transaction example_buy_row) (Some example_buy_trade)).
    + constructor.
    + vm_compute. reflexivity.
    + vm_compute. reflexivity.
    + vm_compute. reflexivity.
    + vm_compute. reflexivity.
Defined.

Lemma C10_witness :
  Forall is_Trade
    [ActivityTrade example_buy_trade; ActivityTrade example_redemption_trade].
Proof.
  apply (proj1 (@C10_activity_is_trades_only example_collaborators
                  [example_transactions_header; example_buy_row;
                   example_fee_row; example_redemption_row] false)).
  vm_compute. reflexivity.
Defined.

(** ** Claims about the sections *)

Section SectionClaims.

Context {collaborators : Collaborators}.

(** C6: the transactions section opens at a row whose leading cells are
    "Account Number", "Trade Date", the positions section at a row whose
    leading cell is "Account Number", and neither criterion has an end
    pattern; a file without a row that opens a section yields the empty
    list for that section, in either mode, and does not raise. *)
Theorem C6_section_criteria_and_absent_sections :
  startSectionRowMatch transactionsCriterion =
    ["Account Number"; "Trade Date"] /\
  endSectionRowMatch transactionsCriterion = [] /\
  startSectionRowMatch positionsCriterion = ["Account Number"] /\
  endSectionRowMatch positionsCriterion = [] /\
  (forall (csvfile : list Row) (lenient : bool),
      no_row_matches ["Account Number"; "Trade Date"] csvfile ->
      __parseTransactions csvfile lenient = Ok []) /\
  (forall (csvfile : list Row) (activity : list Activity) (lenient : bool),
      no_row_matches ["Account Number"] csvfile ->
      __parsePositions csvfile activity lenient = Ok []).
Proof.
  repeat split.
  - intros csvfile lenient H.
    rewrite parseTransactions_section, section_rows_absent by exact H.
    reflexivity.
  - intros csvfile activity lenient H.
    rewrite parsePositions_section, section_rows_absent by exact H.
    reflexivity.
Qed.

Lemma row_matches_true (pattern row : Row) :
  row_matches pattern row = true <-> take (length pattern) row = pattern.
Proof. unfold row_matches. apply bool_decide_eq_true. Qed.


End SectionClaims.

Lemma C6_witness :
  @__parseTransactions example_collaborators
    [example_positions_header; example_position_row] true = Ok [] /\
  @__parsePositions example_collaborators
    [["Fund Account Number"; "Fund Name"]; []] [] false = Ok [].
Proof.
  destruct (@C6_section_criteria_and_absent_sections example_collaborators)
    as (_ & _ & _ & _ & Htransactions & Hpositions).
  split.
  - apply Htransactions. repeat constructor.
  - apply Hpositions. repeat constructor.
Defined.


(** ** Regular expressions: the matcher decides the language *)

Module ReFacts.
Import Re.

#[local] Arguments String.append : simpl nomatch.

Lemma append_nil_r (s : string) : s ++ "" = s.
Proof. induction s as [|c s IH]; simpl; [|rewrite IH]; reflexivity. Qed.

Lemma append_assoc (s1 s2 s3 : string) : (s1 ++ s2) ++ s3 = s1 ++ (s2 ++ s3).
Proof. induction s1 as [|c s1 IH]; simpl; [|rewrite IH]; reflexivity. Qed.

Lemma append_eq_nil (s1 s2 : string) : s1 ++ s2 = "" -> s1 = "" /\ s2 = "".
Proof. destruct s1; simpl; [auto | discriminate]. Qed.

Lemma lang_void_inv (s : string) : lang Void s -> False.
Proof. inversion 1. Qed.

Lemma lang_eps_inv (s : string) : lang Eps s <-> s = "".
Proof. split; [inversion 1; reflexivity | intros ->; constructor]. Qed.

Lemma lang_class_inv (p : ascii -> bool) (s : string) :
  lang (Class p) s <-> exists c, s = String c "" /\ p c = true.
Proof.
  split.
  - inversion 1; subst. eauto.
  - intros (c & -> & H). constructor. exact H.
Qed.

Lemma lang_seq_inv (r1 r2 : regex) (s : string) :
  lang (Seq r1 r2) s <->
  exists s1 s2, s = s1 ++ s2 /\ lang r1 s1 /\ lang r2 s2.
Proof.
  split.
  - inversion 1; subst. eauto.
  - intros (s1 & s2 & -> & H1 & H2). constructor; assumption.
Qed.

Lemma lang_alt_inv (r1 r2 : regex) (s : string) :
  lang (Alt r1 r2) s <-> lang r1 s \/ lang r2 s.
Proof.
  split.
  - inversion 1; subst; auto.
  - intros [H|H]; [apply lang_alt_l | apply lang_alt_r]; exact H.
Qed.

(** A non-empty text of a starred pattern starts with a non-empty text of
    the pattern. *)
Lemma lang_star_cons_inv (r : regex) (c : ascii) (s : string) :
  lang (Star r) (String c s) ->
  exists s1 s2, s = s1 ++ s2 /\ lang r (String c s1) /\ lang (Star r) s2.
Proof.
  intros H. remember (Star r) as r' eqn:Hr. remember (String c s) as s' eqn:Hs.
  induction H as [| | | | | |r0 s1 s2 H1 _ H2 IH2]; try discriminate.
  injection Hr as ->.
  destruct s1 as [|c1 s1]; simpl in Hs.
  - apply IH2; [reflexivity | exact Hs].
  - injection Hs as -> <-. eauto.
Qed.

Lemma nullable_lang (r : regex) : nullable r = true <-> lang r "".
Proof.
  induction r as [| |p|r1 IH1 r2 IH2|r1 IH1 r2 IH2|r IH]; simpl.
  - split; [discriminate | intros H; destruct (lang_void_inv _ H)].
  - split; [constructor | reflexivity].
  - split; [discriminate|]. intros (c & [=] & _)%lang_class_inv.
  - rewrite andb_true_iff, IH1, IH2, lang_seq_inv. split.
    + intros [H1 H2]. exists "", "". auto.
    + intros (s1 & s2 & Hs & H1 & H2). symmetry in Hs.
      apply append_eq_nil in Hs as [-> ->]. auto.
  - rewrite orb_true_iff, IH1, IH2, lang_alt_inv. reflexivity.
  - split; [constructor | reflexivity].
Qed.

Lemma deriv_lang (c : ascii) (r : regex) (s : string) :
  lang (deriv c r) s <-> lang r (String c s).
Proof.
  revert s.
  induction r as [| |p|r1 IH1 r2 IH2|r1 IH1 r2 IH2|r IH]; intros s; simpl.
  - split; intros H; destruct (lang_void_inv _ H).
  - split; [intros H; destruct (lang_void_inv _ H)|].
    intros [=]%lang_eps_inv.
  - rewrite lang_class_inv. destruct (p c) eqn:Hp.
    + rewrite lang_eps_inv. split.
      * intros ->. eauto.
      * intros (c' & [= <- ->] & _). reflexivity.
    + split; [intros H; destruct (lang_void_inv _ H)|].
      intros (c' & [= <- ->] & H). congruence.
  - assert (Hseq : lang (Seq (deriv c r1) r2) s \/
                   (lang r1 "" /\ lang r2 (String c s)) <->
                   lang (Seq r1 r2) (String c s)).
    { rewrite !lang_seq_inv. split.
      - intros [(s1 & s2 & -> & H1 & H2)|[H1 H2]].
        + exists (String c s1), s2. rewrite <- IH1. auto.
        + exists "", (String c s). auto.
      - intros (s1 & s2 & Hs & H1 & H2). destruct s1 as [|c1 s1]; simpl in Hs.
        + subst s2. right. auto.
        + injection Hs as <- ->. left. exists s1, s2. rewrite IH1. auto. }
    destruct (nullable r1) eqn:Hn.
    + rewrite lang_alt_inv, IH2, <- Hseq.
      apply nullable_lang in Hn. tauto.
    + rewrite <- Hseq. split; [auto|].
      intros [H|[H _]]; [exact H|].
      apply nullable_lang in H. congruence.
  - rewrite !lang_alt_inv, IH1, IH2. reflexivity.
  - rewrite lang_seq_inv. split.
    + intros (s1 & s2 & -> & H1 & H2).
      apply (lang_star_cons r (String c s1) s2); [apply IH; exact H1 | exact H2].
    + intros (s1 & s2 & -> & H1 & H2)%lang_star_cons_inv.
      exists s1, s2. rewrite IH. auto.
Qed.

Lemma fullmatch_lang (r : regex) (s : string) :
  fullmatch r s = true <-> lang r s.
Proof.
  revert r. induction s as [|c s IH]; intros r; simpl.
  - apply nullable_lang.
  - rewrite IH. apply deriv_lang.
Qed.

End ReFacts.

(** ** The bond pattern *)

Module BondPattern.
Import Re ReFacts.

#[local] Arguments String.append : simpl nomatch.

Lemma no_newline_app (s1 s2 : string) :
  no_newline (s1 ++ s2) = no_newline s1 && no_newline s2.
Proof.
  induction s1 as [|c s1 IH]; simpl; [reflexivity|].
  rewrite IH, andb_assoc. reflexivity.
Qed.

Lemma lang_dot_inv (s : string) :
  lang dot s <-> exists c, s = String c "" /\ no_newline s = true.
Proof.
  unfold dot. rewrite lang_class_inv. split.
  - intros (c & -> & H). exists c. simpl. rewrite H. auto.
  - intros (c & -> & H). exists c. simpl in H.
    rewrite andb_true_r in H. auto.
Qed.

Lemma lang_star_dot (s : string) : lang (Star dot) s <-> no_newline s = true.
Proof.
  split.
  - intros H. remember (Star dot) as r eqn:Hr.
    induction H as [| | | | | |r0 s1 s2 H1 _ H2 IH2]; try discriminate.
    + reflexivity.
    + injection Hr as ->. apply lang_dot_inv in H1 as (c & -> & Hc).
      rewrite no_newline_app, Hc, IH2; reflexivity.
  - induction s as [|c s IH]; simpl; intros H.
    + constructor.
    + apply andb_true_iff in H as [Hc Hs].
      apply (lang_star_cons dot (String c "") s); [|exact (IH Hs)].
      constructor. exact Hc.
Qed.

Lemma lang_plus_dot (s : string) :
  lang (Plus dot) s <-> s <> "" /\ no_newline s = true.
Proof.
  unfold Plus. rewrite lang_seq_inv. split.
  - intros (s1 & s2 & -> & (c & -> & Hc)%lang_dot_inv & H2%lang_star_dot).
    split; [discriminate|]. rewrite no_newline_app, Hc, H2. reflexivity.
  - intros [Hne H]. destruct s as [|c s]; [congruence|].
    simpl in H. apply andb_true_iff in H as [Hc Hs].
    exists (String c ""), s. split; [reflexivity|]. split.
    + constructor. exact Hc.
    + apply lang_star_dot. exact Hs.
Qed.

Lemma lang_dollar (s : string) :
  lang dollar s <-> s = "" \/ s = String newline "".
Proof.
  unfold dollar, Char. rewrite lang_alt_inv, lang_eps_inv, lang_class_inv.
  split.
  - intros [H|(c & -> & Hc)]; [auto|].
    apply Ascii.eqb_eq in Hc as <-. auto.
  - intros [H| ->]; [auto|]. right. exists newline.
    rewrite Ascii.eqb_refl. auto.
Qed.

Lemma bond_name_pattern_spec (name : string) :
  match_anchored bond_name_pattern name = true <-> is_bond_name name.
Proof.
  unfold match_anchored, is_bond_name. rewrite fullmatch_lang.
  unfold bond_name_pattern, space, Char. split.
  - intros (body & tail & -> & Hbody & Htail%lang_dollar)%lang_seq_inv.
    apply lang_seq_inv in Hbody as (X & r1 & -> & [HX1 HX2]%lang_plus_dot & H).
    apply lang_seq_inv
      in H as (sa & r2 & -> & (a & -> & Ha)%lang_class_inv & H).
    apply lang_seq_inv
      in H as (sp & r3 & -> & (p & -> & Hp)%lang_class_inv & H).
    apply lang_seq_inv
      in H as (sb & Y & -> & (b & -> & Hb)%lang_class_inv
               & [HY1 HY2]%lang_plus_dot).
    apply Ascii.eqb_eq in Hp as <-.
    exists X, a, b, Y, tail. rewrite append_assoc. simpl. auto 10.
  - intros (X & a & b & Y & tail & -> & HX1 & HX2 & Ha & Hb & HY1 & HY2 & Ht).
    replace (X ++ String a (String "%" (String b (Y ++ tail))))
      with ((X ++ (String a "" ++ (String "%" "" ++ (String b "" ++ Y))))
              ++ tail)
      by (rewrite append_assoc; reflexivity).
    apply lang_seq; [|apply lang_dollar; exact Ht].
    apply lang_seq; [apply lang_plus_dot; auto|].
    apply lang_seq; [constructor; exact Ha|].
    apply lang_seq; [constructor; apply Ascii.eqb_refl|].
    apply lang_seq; [constructor; exact Hb|].
    apply lang_plus_dot; auto.
Qed.

End BondPattern.

(** ** Claims about the instrument *)

Section InstrumentClaims.

Context {collaborators : Collaborators}.

Lemma parseVanguardPosition_Ok (p : VanguardPosition)
    (activity : list Activity) (pos : Position) :
  parseVanguardPosition p activity = Ok pos <->
  exists qty basis,
    let instrument :=
      resolved_instrument (vp_symbol p) (vp_investmentName p) in
    Instrument_valid instrument = true /\
    PyDecimal.of_string (vp_shares p) = Ok qty /\
    realizedBasisForSymbol (instrument_symbol instrument) activity =
      Some basis /\
    Position_valid instrument qty basis = true /\
    pos = mk_Position instrument qty basis.
Proof.
  rewrite parseVanguardPosition_unfold. unfold mkPosition. split.
  - intros H.
    apply bind_Ok in H as (i & Hi%validated_Ok & H). destruct Hi as [Hv ->].
    apply bind_Ok in H as (qty & Hqty & H).
    destruct (realizedBasisForSymbol _ _) as [basis|] eqn:Hbasis;
      [|discriminate].
    apply validated_Ok in H as [Hvp ->].
    exists qty, basis. cbn zeta. auto.
  - intros (qty & basis & H). cbn zeta in H.
    destruct H as (Hv & -> & Hbasis & Hvp & ->).
    rewrite Hv. simpl. rewrite Hbasis, Hvp. reflexivity.
Qed.

(** C2: how the code resolves the instrument of a row.
    [guessInstrumentForInvestmentName] constructs a bond under the name
    when the name has the shape "X % Y", and an equity under the name
    otherwise.  Both conversions construct the instrument first, from the
    symbol and the investment name of the row: an equity under the symbol
    when the symbol is not empty, else the guess from the name.  So a
    conversion fails with [ValueError] when the constructor rejects the
    resolved instrument, it returns exactly when the resolved instrument
    is accepted and the other fields convert, and the record it returns
    carries the resolved instrument.  "ABC Corp" without symbol is an
    equity under that name, "US TREAS 2.5 % 2030" a bond. *)
Theorem C2_instrument_resolution :
  (forall name : string,
      is_bond_name name ->
      guessInstrumentForInvestmentName name =
        validated (Bond_valid name USD) (Bond name USD)) /\
  (forall name : string,
      ~ is_bond_name name ->
      guessInstrumentForInvestmentName name =
        validated (Stock_valid name USD) (Stock name USD)) /\
  guessInstrumentForInvestmentName "ABC Corp" =
    validated (Stock_valid "ABC Corp" USD) (Stock "ABC Corp" USD) /\
  guessInstrumentForInvestmentName "US TREAS 2.5 % 2030" =
    validated (Bond_valid "US TREAS 2.5 % 2030" USD)
      (Bond "US TREAS 2.5 % 2030" USD) /\
  (forall (t : VanguardTransaction) (flags : TradeFlags),
      Instrument_valid (resolved_instrument (symbol t) (investmentName t)) =
        false ->
      forceParseVanguardTransaction t flags = Raise ValueError) /\
  (forall (t : VanguardTransaction) (flags : TradeFlags) (trade : Trade),
      forceParseVanguardTransaction t flags = Ok trade <->
      exists totalFees amount parsed quantity date,
        let instrument := resolved_instrument (symbol t) (investmentName t) in
        Instrument_valid instrument = true /\
        PyDecimal.of_string (commissionFees t) = Ok totalFees /\
        PyDecimal.of_string (principalAmount t) = Ok amount /\
        PyDecimal.of_string (shares t) = Ok parsed /\
        signed_shares (transactionDescription t) parsed = Ok quantity /\
        strptime_mdY (tradeDate t) = Ok date /\
        Cash_valid USD amount = true /\
        Cash_valid USD totalFees = true /\
        Trade_valid date instrument quantity (mk_Cash USD amount)
          (mk_Cash USD totalFees) flags = true /\
        trade = mk_Trade date instrument quantity (mk_Cash USD amount)
                  (mk_Cash USD totalFees) flags) /\
  (forall (p : VanguardPosition) (activity : list Activity),
      Instrument_valid
        (resolved_instrument (vp_symbol p) (vp_investmentName p)) = false ->
      parseVanguardPosition p activity = Raise ValueError) /\
  (forall (p : VanguardPosition) (activity : list Activity) (pos : Position),
      parseVanguardPosition p activity = Ok pos <->
      exists qty basis,
        let instrument :=
          resolved_instrument (vp_symbol p) (vp_investmentName p) in
        Instrument_valid instrument = true /\
        PyDecimal.of_string (vp_shares p) = Ok qty /\
        realizedBasisForSymbol (instrument_symbol instrument) activity =
          Some basis /\
        Position_valid instrument qty basis = true /\
        pos = mk_Position instrument qty basis) /\
  (forall (t : VanguardTransaction) (flags : TradeFlags) (trade : Trade),
      forceParseVanguardTransaction t flags = Ok trade ->
      trade_instrument trade =
        resolved_instrument (symbol t) (investmentName t)) /\
  (forall (p : VanguardPosition) (activity : list Activity) (pos : Position),
      parseVanguardPosition p activity = Ok pos ->
      position_instrument pos =
        resolved_instrument (vp_symbol p) (vp_investmentName p)) /\
  (forall symbol name : string,
      symbol <> "" -> resolved_instrument symbol name = Stock symbol USD) /\
  (forall name : string,
      is_bond_name name -> resolved_instrument "" name = Bond name USD) /\
  (forall name : string,
      ~ is_bond_name name -> resolved_instrument "" name = Stock name USD) /\
  resolved_instrument "" "ABC Corp" = Stock "ABC Corp" USD /\
  resolved_instrument "" "US TREAS 2.5 % 2030" =
    Bond "US TREAS 2.5 % 2030" USD.
Proof.
  split.
  { intros name H%BondPattern.bond_name_pattern_spec.
    unfold guessInstrumentForInvestmentName, mkBond. rewrite H. reflexivity. }
  split.
  { intros name H. unfold guessInstrumentForInvestmentName, mkStock.
    destruct (Re.match_anchored bond_name_pattern name) eqn:Hm.
    - apply BondPattern.bond_name_pattern_spec in Hm. contradiction.
    - reflexivity. }
  split; [reflexivity|]. split; [reflexivity|].
  split.
  { intros t flags H. rewrite forceParse_unfold, H. reflexivity. }
  split; [exact forceParse_Ok|].
  split.
  { intros p activity H. rewrite parseVanguardPosition_unfold, H.
    reflexivity. }
  split; [exact parseVanguardPosition_Ok|].
  split.
  { intros t flags trade H.
    apply forceParse_Ok in H
      as (? & ? & ? & ? & ? & _ & _ & _ & _ & _ & _ & _ & _ & _ & ->).
    reflexivity. }
  split.
  { intros p activity pos H.
    apply parseVanguardPosition_Ok in H as (? & ? & _ & _ & _ & _ & ->).
    reflexivity. }
  split.
  { intros symbol name H. unfold resolved_instrument.
    rewrite bool_decide_eq_true_2 by exact H. reflexivity. }
  split.
  { intros name H%BondPattern.bond_name_pattern_spec.
    unfold resolved_instrument. rewrite H. reflexivity. }
  split.
  { intros name H. unfold resolved_instrument.
    destruct (Re.match_anchored bond_name_pattern name) eqn:Hm.
    - apply BondPattern.bond_name_pattern_spec in Hm. contradiction.
    - reflexivity. }
  split; vm_compute; reflexivity.
Qed.

End InstrumentClaims.

(** The instance of C2 on the examples, computed by the code: the guess
    for the two names of the claim, a redemption without symbol, which
    converts to a trade in a bond, a buy in VTI whose constructor rejects
    the empty symbol once the symbol is erased, and the position in VTI. *)
Lemma C2_witness :
  @guessInstrumentForInvestmentName example_collaborators
    "US TREAS 2.5 % 2030" = Ok (Bond "US TREAS 2.5 % 2030" USD) /\
  @guessInstrumentForInvestmentName example_collaborators "ABC Corp" =
    Ok (Stock "ABC Corp" USD) /\
  @forceParseVanguardTransaction example_collaborators
    (example_transaction example_redemption_row) {[CLOSE]} =
    Ok example_redemption_trade /\
  trade_instrument example_redemption_trade =
    resolved_instrument "" "US TREAS 2.5 % 2030" /\
  @forceParseVanguardTransaction example_collaborators
    (mk_VanguardTransaction "01/02/2020" "01/03/2020" "Buy" "Buy" "" ""
       "10" "150.00" "-1500.00" "0.00" "-1500.00" "0.0" "CASH") {[OPEN]} =
    Raise ValueError /\
  @parseVanguardPosition example_collaborators example_position
    [ActivityTrade example_buy_trade] = Ok example_converted_position /\
  position_instrument example_converted_position =
    resolved_instrument "VTI" "VANGUARD TOTAL STOCK MARKET ETF" /\
  @parseVanguardPosition example_collaborators
    (mk_VanguardPosition "" "" "10" "160.00" "1600.00")
    [ActivityTrade example_buy_trade] = Raise ValueError /\
  resolved_instrument "VTI" "VANGUARD TOTAL STOCK MARKET ETF" =
    Stock "VTI" USD /\
  resolved_instrument "" "US TREAS 2.5 % 2030" =
    Bond "US TREAS 2.5 % 2030" USD /\
  resolved_instrument "" "ABC Corp" = Stock "ABC Corp" USD.
Proof.
  destruct (@C2_instrument_resolution example_collaborators)
    as (Hguess_bond & Hguess_equity & _ & _ & Htrade_invalid & Htrade_iff &
        Hposition_invalid & Hposition_iff & Htrade & Hposition & Hsymbol &
        Hbond & Hequity & _ & _).
  assert (Hbond_name : is_bond_name "US TREAS 2.5 % 2030").
  { exists "US TREAS 2.5", " "%char, " "%char, "2030", "".
    repeat split; try discriminate; try reflexivity. left. reflexivity. }
  assert (Hequity_name : ~ is_bond_name "ABC Corp").
  { intros H%BondPattern.bond_name_pattern_spec. vm_compute in H.
    discriminate. }
  assert (Hredemption :
            @forceParseVanguardTransaction example_collaborators
              (example_transaction example_redemption_row) {[CLOSE]} =
            Ok example_redemption_trade).
  { apply Htrade_iff.
    exists (Finite false 0 (-2)), (Finite false 100000 (-2)),
      (Finite false 10 0), (Finite true 10 0), (mk_datetime 2020 3 15 0 0 0).
    cbn zeta.
    split; [vm_compute; reflexivity|]. split; [vm_compute; reflexivity|].
    split; [vm_compute; reflexivity|]. split; [vm_compute; reflexivity|].
    split; [vm_compute; reflexivity|]. split; [vm_compute; reflexivity|].
    split; [vm_compute; reflexivity|]. split; [vm_compute; reflexivity|].
    split; [vm_compute; reflexivity|]. vm_compute. reflexivity. }
  assert (Hvti :
            @parseVanguardPosition example_collaborators example_position
              [ActivityTrade example_buy_trade] =
            Ok example_converted_position).
  { apply Hposition_iff.
    exists (Finite false 10 0), (mk_Cash USD (Finite true 150000 (-2))).
    cbn zeta.
    split; [vm_compute; reflexivity|]. split; [vm_compute; reflexivity|].
    split; [vm_compute; reflexivity|]. split; [vm_compute; reflexivity|].
    vm_compute. reflexivity. }
  split.
  { rewrite (Hguess_bond _ Hbond_name). vm_compute. reflexivity. }
  split.
  { rewrite (Hguess_equity _ Hequity_name). vm_compute. reflexivity. }
  split; [exact Hredemption|].
  split.
  { exact (Htrade _ _ _ Hredemption). }
  split.
  { apply Htrade_invalid. vm_compute. reflexivity. }
  split; [exact Hvti|].
  split.
  { exact (Hposition _ _ _ Hvti). }
  split.
  { apply Hposition_invalid. vm_compute. reflexivity. }
  split.
  { apply Hsymbol. discriminate. }
  split.
  { apply Hbond. exact Hbond_name. }
  apply Hequity. exact Hequity_name.
Defined.

(** ** Decimal numbers: construction is exact, arithmetic is in context *)

Module DecimalFacts.
Import PyDecimal ReFacts.

#[local] Arguments String.append : simpl nomatch.

Lemma span_digits_spec (s ds rest : string) :
  Py.span_digits s = (ds, rest) ->
  s = ds ++ rest /\ Py.all_digits ds = true /\
  match rest with
  | String c _ => Py.isdigit c = false
  | EmptyString => True
  end.
Proof.
  revert ds rest. induction s as [|c s IH]; intros ds rest; simpl.
  - intros [= <- <-]. auto.
  - destruct (Py.isdigit c) eqn:Hc.
    + destruct (Py.span_digits s) as [ds' rest'].
      intros [= <- <-]. destruct (IH _ _ eq_refl) as (-> & Hds & Hrest).
      simpl. rewrite Hc, Hds. auto.
    + intros [= <- <-]. simpl. auto.
Qed.

Lemma take_sign_spec (s : string) (neg : bool) (body : string) :
  take_sign s = (neg, body) ->
  exists sign_text,
    s = sign_text ++ body /\
    ((sign_text = "-" /\ neg = true) \/
     ((sign_text = "" \/ sign_text = "+") /\ neg = false)).
Proof.
  unfold take_sign. destruct s as [|c s].
  - intros [= <- <-]. exists "". auto.
  - destruct (Ascii.eqb_spec c "-") as [->|Hm].
    { intros [= <- <-]. exists "-". auto. }
    destruct (Ascii.eqb_spec c "+") as [->|Hp].
    { intros [= <- <-]. exists "+". auto. }
    intros H. exists "".
    assert ((neg, body) = (false, String c s)) as [= -> ->].
    { rewrite <- H. clear H.
      destruct c as [[] [] [] [] [] [] [] []]; try reflexivity;
        congruence. }
    auto.
Qed.

Lemma lower_is_e (c : ascii) :
  Ascii.eqb (Py.lower c) "e" = true -> c = "e"%char \/ c = "E"%char.
Proof.
  destruct c as [[] [] [] [] [] [] [] []]; vm_compute; intros H;
    try discriminate; auto.
Qed.

Lemma parse_exponent_spec (s : string) (x : Z) :
  parse_exponent s = Some x -> exponent_text s x.
Proof.
  unfold parse_exponent, exponent_text. destruct s as [|c s].
  - intros [= <-]. auto.
  - destruct (Ascii.eqb (Py.lower c) "e") eqn:Hc; [|discriminate].
    apply lower_is_e in Hc.
    destruct (take_sign s) as [neg r1] eqn:Hsign.
    apply take_sign_spec in Hsign as (sign_text & -> & Hsign).
    destruct r1 as [|d r1]; [discriminate|].
    destruct (Py.all_digits (String d r1)) eqn:Hds; [|discriminate].
    intros [= <-]. right. exists c, sign_text, (String d r1).
    split; [reflexivity|]. split; [exact Hc|].
    split; [discriminate|]. split; [exact Hds|].
    destruct Hsign as [[-> ->]|[H ->]]; auto.
Qed.

Lemma parse_number_spec (s : string) (c : N) (e : Z) :
  parse_number s = Some (c, e) -> number_text s c e.
Proof.
  unfold parse_number, number_text.
  destruct (starts_number s) eqn:Hstart; [|discriminate].
  destruct (Py.span_digits s) as [intpart r1] eqn:Hint.
  apply span_digits_spec in Hint as (-> & Hintd & Hr1).
  assert (Hfrac : exists fracpart r2,
             (match r1 with
              | String "." r => Py.span_digits r
              | _ => (EmptyString, r1)
              end) = (fracpart, r2) /\
             (r1 = r2 /\ fracpart = "" \/
              r1 = String "." (fracpart ++ r2) /\
              match r2 with
              | String d _ => Py.isdigit d = false
              | EmptyString => True
              end) /\
             Py.all_digits fracpart = true).
  { destruct r1 as [|d r].
    - exists "", "". auto.
    - destruct (Ascii.eqb_spec d ".") as [->|Hd].
      + destruct (Py.span_digits r) as [fracpart r2] eqn:Hfr.
        apply span_digits_spec in Hfr as (-> & Hfd & Hr2).
        exists fracpart, r2. auto.
      + exists "", (String d r). split; [|auto].
        destruct d as [[] [] [] [] [] [] [] []]; try reflexivity; congruence. }
  destruct Hfrac as (fracpart & r2 & -> & Hshape & Hfracd).
  destruct (parse_exponent r2) as [x|] eqn:Hexp; [|discriminate].
  apply parse_exponent_spec in Hexp.
  intros [= <- <-].
  exists intpart, fracpart, r2, x.
  split.
  { destruct Hshape as [[-> ->]|[-> _]]; auto. }
  split; [exact Hintd|]. split; [exact Hfracd|].
  split; [|auto].
  intros Hempty. apply append_eq_nil in Hempty as [-> ->].
  simpl in Hstart. destruct Hshape as [[-> _]|[-> Hr2]].
  - destruct r2 as [|d r2]; [discriminate|]. simpl in Hstart.
    rewrite Hr1 in Hstart. simpl in Hstart.
    apply andb_true_iff in Hstart as [Hdot _].
    apply Ascii.eqb_eq in Hdot as ->.
    destruct Hexp as [[[=] _]|(E & sg & ds & [= <- _] & [[=]|[=]] & _)].
  - simpl in Hstart.
    destruct r2 as [|d r2]; [discriminate|].
    rewrite Hr2 in Hstart. discriminate.
Qed.

Lemma parse_special_not_finite (sign : bool) (s : string) (d : Decimal) :
  parse_special sign s = Some d -> is_finite d = false.
Proof.
  unfold parse_special.
  destruct (decide _); [intros [= <-]; reflexivity|].
  destruct (match Py.lower_str s with
            | String "s" r => (true, r)
            | _ => (false, Py.lower_str s)
            end) as [signaling r].
  repeat (match goal with
          | |- context [match ?x with _ => _ end] => destruct x
          end; try discriminate).
  all: intros [= <-]; reflexivity.
Qed.

(** A finite [Decimal] constructed from a field is the number that the
    whole field denotes. *)
Lemma of_string_finite_spec (value : string) (sign : bool) (c : N) (e : Z) :
  of_string value = Ok (Finite sign c e) -> decimal_text value sign c e.
Proof.
  unfold of_string, decimal_text.
  destruct (take_sign _) as [neg body] eqn:Hsign.
  apply take_sign_spec in Hsign as (sign_text & Htext & Hsign).
  destruct (parse_number body) as [[c' e']|] eqn:Hnum.
  - intros [= <- <- <-]. apply parse_number_spec in Hnum.
    exists sign_text, body. auto.
  - destruct (parse_special neg body) as [d|] eqn:Hspecial; [|discriminate].
    intros [= ->]. apply parse_special_not_finite in Hspecial. discriminate.
Qed.

(** A field that is no numeric text raises [InvalidOperation], nothing
    else. *)
Lemma of_string_Raise (value : string) (e : exn) :
  of_string value = Raise e -> e = InvalidOperation.
Proof.
  unfold of_string.
  destruct (take_sign _) as [neg body].
  destruct (parse_number body) as [[c' e']|]; [discriminate|].
  destruct (parse_special neg body); [discriminate|].
  intros [= <-]. reflexivity.
Qed.

(** [ndigits] counts the decimal digits of a positive coefficient. *)
Lemma ndigits_fuel_spec (fuel : nat) (c : N) :
  (c < 2 ^ N.of_nat fuel)%N -> (0 < c)%N ->
  (1 <= ndigits_fuel fuel c /\
   10 ^ (ndigits_fuel fuel c - 1) <= Z.of_N c < 10 ^ ndigits_fuel fuel c)%Z.
Proof.
  revert c. induction fuel as [|fuel IH]; intros c Hc Hpos.
  - simpl in Hc. lia.
  - cbn [ndigits_fuel]. destruct (c <? 10)%N eqn:Hlt.
    + apply N.ltb_lt in Hlt. simpl. lia.
    + apply N.ltb_ge in Hlt.
      assert (Hq : (c / 10 < 2 ^ N.of_nat fuel)%N).
      { apply N.Div0.div_lt_upper_bound.
        rewrite Nat2N.inj_succ, N.pow_succ_r' in Hc. lia. }
      assert (Hqpos : (0 < c / 10)%N).
      { apply N.div_str_pos. lia. }
      destruct (IH _ Hq Hqpos) as (Hk & Hlo & Hhi).
      set (k := ndigits_fuel fuel (c / 10)) in *.
      pose proof (N.div_mod c 10 ltac:(lia)) as Hdm.
      pose proof (N.mod_lt c 10 ltac:(lia)) as Hm.
      rewrite N2Z.inj_div in Hlo, Hhi.
      assert (Hc10 : (Z.of_N c = 10 * (Z.of_N c / Z.of_N 10)
                      + Z.of_N (c mod 10))%Z).
      { rewrite <- N2Z.inj_div, <- (N2Z.inj_mul 10), <- N2Z.inj_add.
        f_equal. exact Hdm. }
      replace (1 + k - 1)%Z with (Z.succ (k - 1)) by lia.
      replace (1 + k)%Z with (Z.succ k) by lia.
      rewrite !Z.pow_succ_r by lia.
      change (Z.of_N 10) with 10%Z in *.
      set (q := (Z.of_N c / 10)%Z) in *.
      set (lo := (10 ^ (k - 1))%Z) in *. set (hi := (10 ^ k)%Z) in *.
      assert (Hr : (0 <= Z.of_N (c mod 10) < 10)%Z).
      { split; [apply N2Z.is_nonneg|].
        change 10%Z with (Z.of_N 10). apply N2Z.inj_lt. exact Hm. }
      set (r := Z.of_N (c mod 10)) in *.
      clearbody q lo hi k r. lia.
Qed.

Lemma ndigits_spec (c : N) :
  (0 < c)%N ->
  (1 <= ndigits c /\ 10 ^ (ndigits c - 1) <= Z.of_N c < 10 ^ ndigits c)%Z.
Proof.
  intros Hpos. unfold ndigits. apply ndigits_fuel_spec; [|exact Hpos].
  rewrite N2Nat.id. apply N.size_gt.
Qed.

Lemma fix_finite_Raise (sign : bool) (c : N) (exp : Z) (e : exn) :
  fix_finite sign c exp = Raise e -> e = Overflow.
Proof.
  unfold fix_finite.
  repeat (match goal with
          | |- context [if ?b then _ else _] => destruct b
          | |- context [let '(_, _) := ?x in _] => destruct x
          end; try discriminate).
  all: intros [= <-]; reflexivity.
Qed.

Lemma mul_Raise (x y : Decimal) (e : exn) :
  mul x y = Raise e -> is_conversion_failure e = true.
Proof.
  unfold mul.
  destruct x as [s1 c1 e1|s1|s1 [] p1], y as [s2 c2 e2|s2|s2 [] p2];
    try discriminate; try (intros [= <-]; reflexivity).
  - intros ->%fix_finite_Raise. reflexivity.
  - destruct (is_zero _); [intros [= <-]; reflexivity | discriminate].
  - destruct (is_zero _); [intros [= <-]; reflexivity | discriminate].
Qed.

Lemma mul_Raise_cases (x y : Decimal) (e : exn) :
  mul x y = Raise e -> e = InvalidOperation \/ e = Overflow.
Proof.
  unfold mul.
  destruct x as [s1 c1 e1|s1|s1 [] p1], y as [s2 c2 e2|s2|s2 [] p2];
    try discriminate; try (intros [= <-]; auto).
  - intros ->%fix_finite_Raise. auto.
  - destruct (is_zero _); [intros [= <-]; auto | discriminate].
  - destruct (is_zero _); [intros [= <-]; auto | discriminate].
Qed.

(** Within the context, multiplication by -1 is negation. *)
Lemma mul_int_neg1_in_context (d : Decimal) :
  in_context d -> mul_int d (-1) = Ok (negation d).
Proof.
  destruct d as [s c e| |]; simpl; [|contradiction..].
  unfold mul_int, mul, of_int, fix_finite. simpl sign_of.
  rewrite xorb_true_r, N.mul_1_r, Z.add_0_r.
  destruct (c =? 0)%N eqn:Hc.
  - intros H. apply N.eqb_eq in Hc as ->.
    replace (Z.min (Z.max e Etiny) Emax) with e by lia. reflexivity.
  - intros (Hdigits & Htiny & Hmax).
    assert (Htop : (Etop <? ndigits c + e - prec)%Z = false)
      by (apply Z.ltb_ge; unfold Etop; lia).
    rewrite Htop.
    assert (Hmin : (e <? Z.max (ndigits c + e - prec) Etiny)%Z = false)
      by (apply Z.ltb_ge; lia).
    rewrite Hmin. reflexivity.
Qed.

Lemma negation_neq (d : Decimal) : negation d <> d.
Proof. destruct d as [[] ? ?|[]|[] ? ?]; discriminate. Qed.

Lemma strptime_mdY_Raise (s : string) (e : exn) :
  PyDatetime.strptime_mdY s = Raise e -> e = ValueError.
Proof.
  unfold PyDatetime.strptime_mdY.
  repeat (match goal with
          | |- context [if ?b then _ else _] => destruct b
          | |- context [match ?x with _ => _ end] => destruct x
          end; try discriminate).
  all: try (intros [= <-]; reflexivity).
  all: intros H; apply validated_Raise in H; exact H.
Qed.

End DecimalFacts.

(** ** Claims about the fields of a transaction *)

Section ConversionClaims.

Context {collaborators : Collaborators}.

Import DecimalFacts.

(** Whatever makes the conversion of a transaction raise is a conversion
    failure. *)
Lemma forceParse_Raise (t : VanguardTransaction) (flags : TradeFlags)
    (e : exn) :
  forceParseVanguardTransaction t flags = Raise e ->
  is_conversion_failure e = true.
Proof.
  rewrite forceParse_unfold. unfold mkCash, mkTrade, signed_shares. intros H.
  apply bind_Raise in H as [H|(i & _ & H)];
    [apply validated_Raise in H as ->; reflexivity|].
  apply bind_Raise in H as [H|(fees & _ & H)];
    [apply of_string_Raise in H as ->; reflexivity|].
  apply bind_Raise in H as [H|(amount & _ & H)];
    [apply of_string_Raise in H as ->; reflexivity|].
  apply bind_Raise in H as [H|(q & _ & H)].
  { apply bind_Raise in H as [H|(parsed & _ & H)];
      [apply of_string_Raise in H as ->; reflexivity|].
    destruct (bool_decide _); [|discriminate].
    exact (mul_Raise _ _ _ H). }
  apply bind_Raise in H as [H|(date & _ & H)];
    [apply strptime_mdY_Raise in H as ->; reflexivity|].
  apply bind_Raise in H as [H|(a' & _ & H)];
    [apply validated_Raise in H as ->; reflexivity|].
  apply bind_Raise in H as [H|(f' & _ & H)];
    [apply validated_Raise in H as ->; reflexivity|].
  apply validated_Raise in H as ->. reflexivity.
Qed.

(** C3, as the code has it: the quantity of a converted transaction is the
    parsed shares multiplied by -1, in the decimal context, when the
    description is exactly "Redemption", and the parsed shares unchanged
    for any other description.  When the parsed shares fit the context (at
    most 28 digits, exponent in range), the product is their negation, and
    the quantity is that negation exactly when the description is
    "Redemption". *)
Theorem C3_sign_convention :
  forall (t : VanguardTransaction) (flags : TradeFlags) (trade : Trade),
    forceParseVanguardTransaction t flags = Ok trade ->
    exists parsed : Decimal,
      PyDecimal.of_string (shares t) = Ok parsed /\
      (transactionDescription t = "Redemption" ->
       PyDecimal.mul_int parsed (-1) = Ok (trade_quantity trade)) /\
      (transactionDescription t <> "Redemption" ->
       trade_quantity trade = parsed) /\
      (PyDecimal.in_context parsed ->
       (trade_quantity trade = PyDecimal.negation parsed <->
        transactionDescription t = "Redemption")).
Proof.
  intros t flags trade H.
  apply forceParse_Ok in H
    as (fees & amount & parsed & q & date & _ & _ & _ & Hparsed & Hq & _ & _
        & _ & _ & ->).
  exists parsed. split; [exact Hparsed|]. unfold signed_shares in Hq. simpl.
  destruct (decide (transactionDescription t = "Redemption")) as [Hd|Hd].
  - rewrite bool_decide_eq_true_2 in Hq by exact Hd.
    split; [auto|]. split; [contradiction|].
    intros Hctx. split; [auto|]. intros _.
    rewrite (mul_int_neg1_in_context _ Hctx) in Hq. congruence.
  - rewrite bool_decide_eq_false_2 in Hq by exact Hd.
    injection Hq as <-.
    split; [contradiction|]. split; [auto|].
    intros _. split; [|contradiction].
    intros Hneg. symmetry in Hneg. destruct (negation_neq _ Hneg).
Qed.

(** C8: a transaction of a recognized type whose trade date does not match
    the format, or whose shares, principal amount or fees are no decimal
    text, does not convert: the conversion raises a conversion failure.
    When it converts, the fees and the amount of the trade are the decimals
    constructed from the whole fields, the quantity is computed from the
    decimal constructed from the whole shares field, and the date is the
    one parsed; a finite decimal constructed from a field is the number
    that the whole field denotes, digit for digit.  A field that is no
    decimal text raises [InvalidOperation], and a date that does not match
    the pattern of the format raises [ValueError]. *)
Theorem C8_malformed_fields_fail_and_values_are_exact :
  forall t : VanguardTransaction,
    transactionType t ∈ validTransactionTypes ->
    ((~ is_Ok (strptime_mdY (tradeDate t)) \/
      ~ is_Ok (PyDecimal.of_string (shares t)) \/
      ~ is_Ok (PyDecimal.of_string (principalAmount t)) \/
      ~ is_Ok (PyDecimal.of_string (commissionFees t))) ->
     exists e,
       parseVanguardTransaction t = Raise e /\
       is_conversion_failure e = true) /\
    (forall trade : Trade,
        parseVanguardTransaction t = Ok (Some trade) ->
        PyDecimal.of_string (commissionFees t) =
          Ok (cash_quantity (trade_fees trade)) /\
        PyDecimal.of_string (principalAmount t) =
          Ok (cash_quantity (trade_amount trade)) /\
        (exists parsed,
            PyDecimal.of_string (shares t) = Ok parsed /\
            signed_shares (transactionDescription t) parsed =
              Ok (trade_quantity trade)) /\
        strptime_mdY (tradeDate t) = Ok (trade_date trade)) /\
    (forall (field : string) (sign : bool) (c : N) (e : Z),
        PyDecimal.of_string field = Ok (Finite sign c e) ->
        decimal_text field sign c e) /\
    (forall (field : string) (e : exn),
        PyDecimal.of_string field = Raise e -> e = InvalidOperation) /\
    (forall field : string,
        Re.fullmatch PyDatetime.re_mdY field = false ->
        strptime_mdY field = Raise ValueError).
Proof.
  intros t Hty.
  apply valid_type_has_flags in Hty as [flags Hflags].
  rewrite (parseVanguardTransaction_recognized _ _ Hflags).
  split; [|split; [|split; [|split]]].
  - intros Hbad.
    destruct (forceParseVanguardTransaction t flags) as [trade|e] eqn:Hforce.
    + apply forceParse_Ok in Hforce
        as (fees & amount & parsed & q & date & _ & Hfees & Hamount & Hparsed
            & _ & Hdate & _).
      unfold is_Ok in Hbad. exfalso.
      destruct Hbad as [Hbad|[Hbad|[Hbad|Hbad]]]; apply Hbad; eauto.
    + exists e. split; [reflexivity|]. exact (forceParse_Raise _ _ _ Hforce).
  - intros trade H. apply bind_Ok in H as (trade' & Hforce & [= <-]).
    apply forceParse_Ok in Hforce
      as (fees & amount & parsed & q & date & _ & Hfees & Hamount & Hparsed
          & Hq & Hdate & _ & _ & _ & ->).
    simpl. eauto 10.
  - exact of_string_finite_spec.
  - exact of_string_Raise.
  - intros field H. unfold strptime_mdY. rewrite H. reflexivity.
Qed.

End ConversionClaims.

Lemma C3_witness :
  exists parsed : Decimal,
    PyDecimal.of_string "10" = Ok parsed /\
    ("Redemption" = "Redemption" ->
     PyDecimal.mul_int parsed (-1) = Ok (Finite true 10 0)) /\
    ("Redemption" <> "Redemption" -> Finite true 10 0 = parsed) /\
    (PyDecimal.in_context parsed ->
     (Finite true 10 0 = PyDecimal.negation parsed <->
      "Redemption" = "Redemption")).
Proof.
  apply (@C3_sign_convention example_collaborators
           (example_transaction example_redemption_row) {[CLOSE]}
           example_redemption_trade).
  vm_compute. reflexivity.
Defined.

(** C3, as the spec has it, fails: the shares of this redemption have 29
    digits, and the quantity is not their negation but the negation rounded
    to 28 digits. *)
Lemma C3_counterexample :
  transactionDescription (example_transaction example_long_redemption_row) =
    "Redemption" /\
  PyDecimal.of_string
    (shares (example_transaction example_long_redemption_row)) =
    Ok (Finite false 10000000000000000000000000001 0) /\
  exists trade : Trade,
    @forceParseVanguardTransaction example_collaborators
      (example_transaction example_long_redemption_row) {[CLOSE]} = Ok trade /\
    trade_quantity trade = Finite true 1000000000000000000000000000 1 /\
    trade_quantity trade <>
      PyDecimal.negation (Finite false 10000000000000000000000000001 0).
Proof.
  split; [reflexivity|]. split; [vm_compute; reflexivity|].
  eexists. split; [vm_compute; reflexivity|].
  split; [reflexivity | discriminate].
Qed.

Lemma C8_witness :
  (exists e,
      @parseVanguardTransaction example_collaborators
        (mk_VanguardTransaction "13/45/2020" "" "Sell" "Sell" "ABC Corp" ""
           "10" "" "1,000.00" "$5" "" "" "") = Raise e /\
      is_conversion_failure e = true) /\
  PyDecimal.of_string "-1500.00" =
    Ok (cash_quantity (trade_amount example_buy_trade)) /\
  decimal_text "-1500.00" true 150000 (-2).
Proof.
  split.
  - apply (@C8_malformed_fields_fail_and_values_are_exact
             example_collaborators
             (mk_VanguardTransaction "13/45/2020" "" "Sell" "Sell" "ABC Corp"
                "" "10" "" "1,000.00" "$5" "" "" "")).
    + apply elem_of_list_to_set. repeat constructor.
    + left. intros [d Hd]. vm_compute in Hd. discriminate.
  - destruct (@C8_malformed_fields_fail_and_values_are_exact
                example_collaborators (example_transaction example_buy_row))
      as (_ & Hvalues & Hexact & _).
    { apply elem_of_list_to_set. repeat constructor. }
    split.
    + apply (Hvalues example_buy_trade). vm_compute. reflexivity.
    + apply Hexact. vm_compute. reflexivity.
Defined.

(* ===================================================================== *)
(** * Further properties of the conversions *)
(* ===================================================================== *)

Lemma table_lookups :
  flagsByTransactionType !! "Buy" = Some {[OPEN]} /\
  flagsByTransactionType !! "Sell" = Some {[CLOSE]} /\
  flagsByTransactionType !! "Reinvestment" = Some ({[OPEN]} ∪ {[DRIP]}) /\
  flagsByTransactionType !! "Corp Action (Redemption)" = Some {[CLOSE]} /\
  flagsByTransactionType !! "Transfer (outgoing)" = Some {[CLOSE]}.
Proof. do 4 (split; [vm_compute; reflexivity|]). vm_compute. reflexivity. Qed.

Lemma valid_type_cases (ty : string) :
  ty ∈ validTransactionTypes <->
  ty = "Buy" \/ ty = "Sell" \/ ty = "Reinvestment" \/
  ty = "Corp Action (Redemption)" \/ ty = "Transfer (outgoing)".
Proof.
  unfold validTransactionTypes. rewrite elem_of_list_to_set.
  rewrite !elem_of_cons, elem_of_nil. tauto.
Qed.

Lemma lookup_symbol_resolved (symbol name : string) :
  instrument_symbol (resolved_instrument symbol name) =
  lookup_symbol symbol name.
Proof.
  unfold resolved_instrument, lookup_symbol.
  destruct (bool_decide (symbol <> "")); [reflexivity|].
  destruct (Re.match_anchored bond_name_pattern name); reflexivity.
Qed.

Lemma currency_resolved (symbol name : string) :
  instrument_currency (resolved_instrument symbol name) = USD.
Proof.
  unfold resolved_instrument.
  destruct (bool_decide (symbol <> "")); [reflexivity|].
  destruct (Re.match_anchored bond_name_pattern name); reflexivity.
Qed.

Lemma resolved_ignores_name (symbol name name' : string) :
  symbol <> "" ->
  resolved_instrument symbol name = resolved_instrument symbol name'.
Proof.
  intros H. unfold resolved_instrument.
  rewrite bool_decide_eq_true_2 by exact H. reflexivity.
Qed.

Section RowProperties.

Context {collaborators : Collaborators}.

Import DecimalFacts.

(** What a converted transaction row has gone through. *)
Lemma parseVanguardTransaction_Some (t : VanguardTransaction)
    (trade : Trade) :
  parseVanguardTransaction t = Ok (Some trade) ->
  exists flags,
    flagsByTransactionType !! transactionType t = Some flags /\
    forceParseVanguardTransaction t flags = Ok trade.
Proof.
  intros H.
  destruct (decide (transactionType t ∈ validTransactionTypes)) as [Hin|Hout].
  - apply valid_type_has_flags in Hin as [flags Hin].
    rewrite (parseVanguardTransaction_recognized _ _ Hin) in H.
    apply bind_Ok in H as (trade' & Hforce & [= <-]). eauto.
  - rewrite parseVanguardTransaction_unrecognized in H by exact Hout.
    discriminate.
Qed.

Lemma forceParse_Raise_cases (t : VanguardTransaction) (flags : TradeFlags)
    (e : exn) :
  forceParseVanguardTransaction t flags = Raise e ->
  e = ValueError \/ e = InvalidOperation \/
  (e = Overflow /\ transactionDescription t = "Redemption").
Proof.
  rewrite forceParse_unfold. unfold mkCash, mkTrade, signed_shares. intros H.
  apply bind_Raise in H as [H|(i & _ & H)];
    [apply validated_Raise in H as ->; auto|].
  apply bind_Raise in H as [H|(fees & _ & H)];
    [apply of_string_Raise in H as ->; auto|].
  apply bind_Raise in H as [H|(amount & _ & H)];
    [apply of_string_Raise in H as ->; auto|].
  apply bind_Raise in H as [H|(q & _ & H)].
  { apply bind_Raise in H as [H|(parsed & _ & H)];
      [apply of_string_Raise in H as ->; auto|].
    destruct (bool_decide _) eqn:Hd; [|discriminate].
    apply bool_decide_eq_true in Hd.
    apply mul_Raise_cases in H as [-> | ->]; auto. }
  apply bind_Raise in H as [H|(date & _ & H)];
    [apply strptime_mdY_Raise in H as ->; auto|].
  apply bind_Raise in H as [H|(a' & _ & H)];
    [apply validated_Raise in H as ->; auto|].
  apply bind_Raise in H as [H|(f' & _ & H)];
    [apply validated_Raise in H as ->; auto|].
  apply validated_Raise in H as ->. auto.
Qed.

(** X1: the conversion of a transaction raises for rows of a recognized
    type only, and then [ValueError], [InvalidOperation] or [Overflow],
    never [KeyError], [TypeError] or [AssertionError]; [Overflow] only for
    a row described as "Redemption", the one case with arithmetic. *)
Theorem parseVanguardTransaction_raises_only_conversion_failures :
  forall (t : VanguardTransaction) (e : exn),
    parseVanguardTransaction t = Raise e ->
    transactionType t ∈ validTransactionTypes /\
    (e = ValueError \/ e = InvalidOperation \/ e = Overflow) /\
    (e = Overflow -> transactionDescription t = "Redemption").
Proof.
  intros t e H.
  destruct (decide (transactionType t ∈ validTransactionTypes)) as [Hin|Hout].
  - split; [exact Hin|].
    apply valid_type_has_flags in Hin as [flags Hin].
    rewrite (parseVanguardTransaction_recognized _ _ Hin) in H.
    apply bind_Raise in H as [H|(trade & _ & [=])].
    apply forceParse_Raise_cases in H as [->|[->|[-> Hd]]].
    + split; [auto|discriminate].
    + split; [auto|discriminate].
    + split; [auto|]. intros _. exact Hd.
  - rewrite parseVanguardTransaction_unrecognized in H by exact Hout.
    discriminate.
Qed.

(** X2: the defects of a position row are reported in the order
    instrument, shares, basis: an instrument that the constructor rejects
    raises [ValueError] whatever the shares hold; shares that are no
    decimal raise [InvalidOperation] exactly when the instrument is
    accepted; the assertion fails exactly when instrument and shares are
    fine and the basis is missing.  Nothing else is raised. *)
Theorem parseVanguardPosition_failure_order :
  forall (p : VanguardPosition) (activity : list Activity),
    let instrument :=
      resolved_instrument (vp_symbol p) (vp_investmentName p) in
    (Instrument_valid instrument = false ->
     parseVanguardPosition p activity = Raise ValueError) /\
    (parseVanguardPosition p activity = Raise InvalidOperation <->
     Instrument_valid instrument = true /\
     ~ is_Ok (PyDecimal.of_string (vp_shares p))) /\
    (parseVanguardPosition p activity = Raise AssertionError <->
     Instrument_valid instrument = true /\
     is_Ok (PyDecimal.of_string (vp_shares p)) /\
     realizedBasisForSymbol (instrument_symbol instrument) activity = None) /\
    (forall e, parseVanguardPosition p activity = Raise e ->
               e = ValueError \/ e = InvalidOperation \/ e = AssertionError).
Proof.
  intros p activity instrument. subst instrument.
  rewrite parseVanguardPosition_unfold. unfold mkPosition, is_Ok.
  destruct (Instrument_valid _) eqn:Hv; simpl.
  2:{ split; [reflexivity|]. split; [split; [discriminate|intros [[=] _]]|].
      split; [split; [discriminate|intros [[=] _]]|].
      intros e [= <-]. auto. }
  split; [discriminate|].
  destruct (PyDecimal.of_string (vp_shares p)) as [qty|e0] eqn:Hq; simpl.
  2:{ apply of_string_Raise in Hq as Heq. subst e0.
      split; [split; [intros _; split; [reflexivity|intros [? [=]]]|reflexivity]|].
      split; [split; [discriminate|intros (_ & [? [=]] & _)]|].
      intros e [= <-]. auto. }
  destruct (realizedBasisForSymbol _ _) as [basis|] eqn:Hb.
  - split.
    { split; [|intros [_ Hn]; destruct Hn; eauto].
      intros H. apply validated_Raise in H. discriminate. }
    split.
    { split; [|intros (_ & _ & [=])].
      intros H. apply validated_Raise in H. discriminate. }
    intros e H. apply validated_Raise in H. auto.
  - split; [split; [discriminate|intros [_ Hn]; destruct Hn; eauto]|].
    split; [split; [eauto|reflexivity]|].
    intros e [= <-]. auto.
Qed.

(** X3: the conversion of a transaction reads the type, the trade date,
    the description, the investment name, the symbol, the shares, the
    principal amount and the fees, and nothing else: the settlement date,
    the share price, the net amount, the accrued interest and the account
    type have no influence, be they malformed.  When the symbol is not
    empty, the investment name has none either. *)
Theorem parseVanguardTransaction_reads_only :
  (forall t t' : VanguardTransaction,
      transactionType t = transactionType t' ->
      same_read_fields t t' ->
      parseVanguardTransaction t = parseVanguardTransaction t') /\
  (forall t t' : VanguardTransaction,
      symbol t <> "" ->
      transactionType t = transactionType t' ->
      tradeDate t = tradeDate t' ->
      transactionDescription t = transactionDescription t' ->
      symbol t = symbol t' ->
      shares t = shares t' ->
      principalAmount t = principalAmount t' ->
      commissionFees t = commissionFees t' ->
      parseVanguardTransaction t = parseVanguardTransaction t').
Proof.
  split.
  - intros t t' Hty (Hd & Hdesc & Hname & Hsym & Hsh & Hp & Hf).
    unfold parseVanguardTransaction. rewrite Hty.
    destruct (bool_decide _); [reflexivity|].
    destruct (dict_getitem _ _) as [flags|]; [|reflexivity]. simpl.
    rewrite !forceParse_unfold, Hd, Hdesc, Hname, Hsym, Hsh, Hp, Hf.
    reflexivity.
  - intros t t' Hne Hty Hd Hdesc Hsym Hsh Hp Hf.
    unfold parseVanguardTransaction. rewrite Hty.
    destruct (bool_decide _); [reflexivity|].
    destruct (dict_getitem _ _) as [flags|]; [|reflexivity]. simpl.
    rewrite !forceParse_unfold, Hd, Hdesc, <- Hsym, Hsh, Hp, Hf.
    rewrite (resolved_ignores_name (symbol t) (investmentName t)
               (investmentName t') Hne).
    reflexivity.
Qed.

(** X4: the conversion of a position reads the investment name, the symbol
    and the shares; the share price and the total value have no influence,
    and neither has the investment name when the symbol is not empty. *)
Theorem parseVanguardPosition_reads_only :
  (forall (p p' : VanguardPosition) (activity : list Activity),
      vp_investmentName p = vp_investmentName p' ->
      vp_symbol p = vp_symbol p' ->
      vp_shares p = vp_shares p' ->
      parseVanguardPosition p activity = parseVanguardPosition p' activity) /\
  (forall (p p' : VanguardPosition) (activity : list Activity),
      vp_symbol p <> "" ->
      vp_symbol p = vp_symbol p' ->
      vp_shares p = vp_shares p' ->
      parseVanguardPosition p activity = parseVanguardPosition p' activity).
Proof.
  split.
  - intros p p' activity Hname Hsym Hsh.
    rewrite !parseVanguardPosition_unfold, Hname, Hsym, Hsh. reflexivity.
  - intros p p' activity Hne Hsym Hsh.
    rewrite !parseVanguardPosition_unfold, <- Hsym, Hsh.
    rewrite (resolved_ignores_name (vp_symbol p) (vp_investmentName p)
               (vp_investmentName p') Hne).
    reflexivity.
Qed.

End RowProperties.

Section RecordProperties.

Context {collaborators : Collaborators}.

(** X5: every converted transaction is denominated in USD: its
    instrument, its amount and its fees carry that currency, whatever the
    row holds; so does the instrument of every converted position. *)
Theorem converted_records_are_in_USD :
  (forall (t : VanguardTransaction) (trade : Trade),
      parseVanguardTransaction t = Ok (Some trade) ->
      instrument_currency (trade_instrument trade) = USD /\
      cash_currency (trade_amount trade) = USD /\
      cash_currency (trade_fees trade) = USD) /\
  (forall (p : VanguardPosition) (activity : list Activity) (pos : Position),
      parseVanguardPosition p activity = Ok pos ->
      instrument_currency (position_instrument pos) = USD).
Proof.
  split.
  - intros t trade H.
    apply parseVanguardTransaction_Some in H as (flags & _ & H).
    apply forceParse_Ok in H
      as (? & ? & ? & ? & ? & _ & _ & _ & _ & _ & _ & _ & _ & _ & ->).
    simpl. rewrite currency_resolved. auto.
  - intros p activity pos H.
    apply parseVanguardPosition_Ok in H as (? & ? & _ & _ & _ & _ & ->).
    simpl. apply currency_resolved.
Qed.

(** X6: a transaction and a position are matched by the same key, the
    symbol of the row when it has one and its investment name otherwise,
    be the instrument an equity or a bond.  The cost basis of a converted
    position is what the basis lookup returns for that key and the given
    activity, passed on unchanged, and its quantity is the decimal
    constructed from the shares field, sign and digits unchanged. *)
Theorem position_is_keyed_like_its_transactions :
  (forall (t : VanguardTransaction) (trade : Trade),
      parseVanguardTransaction t = Ok (Some trade) ->
      instrument_symbol (trade_instrument trade) =
        lookup_symbol (symbol t) (investmentName t)) /\
  (forall (p : VanguardPosition) (activity : list Activity) (pos : Position),
      parseVanguardPosition p activity = Ok pos ->
      instrument_symbol (position_instrument pos) =
        lookup_symbol (vp_symbol p) (vp_investmentName p) /\
      realizedBasisForSymbol
        (lookup_symbol (vp_symbol p) (vp_investmentName p)) activity =
        Some (position_costBasis pos) /\
      PyDecimal.of_string (vp_shares p) = Ok (position_quantity pos)).
Proof.
  split.
  - intros t trade H.
    apply parseVanguardTransaction_Some in H as (flags & _ & H).
    apply forceParse_Ok in H
      as (? & ? & ? & ? & ? & _ & _ & _ & _ & _ & _ & _ & _ & _ & ->).
    simpl. apply lookup_symbol_resolved.
  - intros p activity pos H.
    apply parseVanguardPosition_Ok in H
      as (qty & basis & _ & Hq & Hb & _ & ->).
    simpl. rewrite lookup_symbol_resolved in Hb.
    rewrite lookup_symbol_resolved. auto.
Qed.

Lemma flags_facts (flags : TradeFlags) :
  flags ∈ table_flags ->
  (OPEN ∈ flags <-> CLOSE ∉ flags) /\
  (DRIP ∈ flags <-> flags = {[OPEN]} ∪ {[DRIP]}) /\
  (CLOSE ∈ flags <-> flags = {[CLOSE]}) /\
  (EXPIRED ∉ flags) /\ (ASSIGNED_OR_EXERCISED ∉ flags).
Proof.
  unfold table_flags. rewrite !elem_of_cons, elem_of_nil.
  intros [->|[->|[->|[]]]].
  - split; [split; [intros _|intros _]|].
    { apply (proj1 (bool_decide_eq_false _)). vm_compute. reflexivity. }
    { apply (proj1 (bool_decide_eq_true _)). vm_compute. reflexivity. }
    split; [split; intros H; exfalso; revert H|].
    { apply (proj1 (bool_decide_eq_false _)). vm_compute. reflexivity. }
    { apply (proj1 (bool_decide_eq_false _)). vm_compute. reflexivity. }
    split; [split; intros H; exfalso; revert H|].
    { apply (proj1 (bool_decide_eq_false _)). vm_compute. reflexivity. }
    { apply (proj1 (bool_decide_eq_false _)). vm_compute. reflexivity. }
    split; apply (proj1 (bool_decide_eq_false _)); vm_compute; reflexivity.
  - split; [split; intros H; exfalso; revert H|].
    { apply (proj1 (bool_decide_eq_false _)). vm_compute. reflexivity. }
    { intros H. apply H.
      apply (proj1 (bool_decide_eq_true _)). vm_compute. reflexivity. }
    split; [split; intros H; exfalso; revert H|].
    { apply (proj1 (bool_decide_eq_false _)). vm_compute. reflexivity. }
    { apply (proj1 (bool_decide_eq_false _)). vm_compute. reflexivity. }
    split; [split; [reflexivity|intros _]|].
    { apply (proj1 (bool_decide_eq_true _)). vm_compute. reflexivity. }
    split; apply (proj1 (bool_decide_eq_false _)); vm_compute; reflexivity.
  - split; [split; [intros _|intros _]|].
    { apply (proj1 (bool_decide_eq_false _)). vm_compute. reflexivity. }
    { apply (proj1 (bool_decide_eq_true _)). vm_compute. reflexivity. }
    split; [split; [reflexivity|intros _]|].
    { apply (proj1 (bool_decide_eq_true _)). vm_compute. reflexivity. }
    split; [split; intros H; exfalso; revert H|].
    { apply (proj1 (bool_decide_eq_false _)). vm_compute. reflexivity. }
    { apply (proj1 (bool_decide_eq_false _)). vm_compute. reflexivity. }
    split; apply (proj1 (bool_decide_eq_false _)); vm_compute; reflexivity.
Qed.

(** X7: the flags of a converted transaction are one of the three
    combinations of the table: OPEN, CLOSE, or OPEN with DRIP.  So a trade
    opens or closes, never both and never neither; DRIP comes with OPEN
    only, and exactly for a 'Reinvestment'; CLOSE comes exactly for 'Sell',
    'Corp Action (Redemption)' and 'Transfer (outgoing)'; EXPIRED and
    ASSIGNED_OR_EXERCISED are never set. *)
Theorem converted_flags_invariant :
  forall (t : VanguardTransaction) (trade : Trade),
    parseVanguardTransaction t = Ok (Some trade) ->
    trade_flags trade ∈ table_flags /\
    (OPEN ∈ trade_flags trade <-> CLOSE ∉ trade_flags trade) /\
    (DRIP ∈ trade_flags trade <-> transactionType t = "Reinvestment") /\
    (CLOSE ∈ trade_flags trade <->
     transactionType t = "Sell" \/
     transactionType t = "Corp Action (Redemption)" \/
     transactionType t = "Transfer (outgoing)") /\
    (EXPIRED ∉ trade_flags trade) /\
    (ASSIGNED_OR_EXERCISED ∉ trade_flags trade).
Proof.
  intros t trade H.
  apply parseVanguardTransaction_Some in H as (flags & Hflags & H).
  apply forceParse_Ok in H
    as (? & ? & ? & ? & ? & _ & _ & _ & _ & _ & _ & _ & _ & _ & ->).
  cbn [trade_flags].
  assert (Hty : transactionType t ∈ validTransactionTypes)
    by (apply valid_type_has_flags; eauto).
  destruct table_lookups as (Hbuy & Hsell & Hre & Hcorp & Htransfer).
  assert (Hin : flags ∈ table_flags /\
                (flags = {[OPEN]} ∪ {[DRIP]} <->
                 transactionType t = "Reinvestment") /\
                (flags = {[CLOSE]} <->
                 transactionType t = "Sell" \/
                 transactionType t = "Corp Action (Redemption)" \/
                 transactionType t = "Transfer (outgoing)")).
  { unfold table_flags. rewrite !elem_of_cons.
    assert (Hoc : ({[OPEN]} : TradeFlags) <> {[CLOSE]})
      by (apply (proj1 (bool_decide_eq_false _)); vm_compute; reflexivity).
    assert (Hod : ({[OPEN]} : TradeFlags) <> {[OPEN]} ∪ {[DRIP]})
      by (apply (proj1 (bool_decide_eq_false _)); vm_compute; reflexivity).
    assert (Hcd : ({[CLOSE]} : TradeFlags) <> {[OPEN]} ∪ {[DRIP]})
      by (apply (proj1 (bool_decide_eq_false _)); vm_compute; reflexivity).
    apply valid_type_cases in Hty as [Hty|[Hty|[Hty|[Hty|Hty]]]];
      rewrite Hty in Hflags |- *.
    - rewrite Hbuy in Hflags. injection Hflags as <-.
      split; [auto|]. split; split; try discriminate; try congruence.
      intros [[=]|[[=]|[=]]].
    - rewrite Hsell in Hflags. injection Hflags as <-.
      split; [auto|]. split; split; try discriminate; try congruence; auto.
    - rewrite Hre in Hflags. injection Hflags as <-.
      split; [auto|]. split; split; try discriminate; try congruence; auto.
      intros [[=]|[[=]|[=]]].
    - rewrite Hcorp in Hflags. injection Hflags as <-.
      split; [auto|]. split; split; try discriminate; try congruence; auto.
    - rewrite Htransfer in Hflags. injection Hflags as <-.
      split; [auto|]. split; split; try discriminate; try congruence; auto. }
  destruct Hin as (Hin & Hdrip & Hclose).
  destruct (flags_facts flags Hin) as (H1 & H2 & H3 & H4 & H5).
  split; [exact Hin|]. split; [exact H1|].
  split; [rewrite <- Hdrip; exact H2|].
  split; [rewrite <- Hclose; exact H3|].
  split; [exact H4 | exact H5].
Qed.

(** X8: the type of a transaction decides the flags and nothing else: two
    rows that agree on the fields read, and whose types are recognized,
    convert to trades with the same date, instrument, quantity, amount and
    fees.  The sign of the quantity follows the description, not the
    type. *)
Theorem type_decides_flags_only :
  forall (t t' : VanguardTransaction) (trade trade' : Trade),
    same_read_fields t t' ->
    parseVanguardTransaction t = Ok (Some trade) ->
    parseVanguardTransaction t' = Ok (Some trade') ->
    trade_date trade' = trade_date trade /\
    trade_instrument trade' = trade_instrument trade /\
    trade_quantity trade' = trade_quantity trade /\
    trade_amount trade' = trade_amount trade /\
    trade_fees trade' = trade_fees trade.
Proof.
  intros t t' trade trade' (Hd & Hdesc & Hname & Hsym & Hsh & Hp & Hf) H H'.
  apply parseVanguardTransaction_Some in H as (flags & _ & H).
  apply parseVanguardTransaction_Some in H' as (flags' & _ & H').
  apply forceParse_Ok in H
    as (fees & amount & parsed & q & date & _ & Hfees & Hamount & Hparsed
        & Hq & Hdate & _ & _ & _ & ->).
  apply forceParse_Ok in H'
    as (fees' & amount' & parsed' & q' & date' & _ & Hfees' & Hamount'
        & Hparsed' & Hq' & Hdate' & _ & _ & _ & ->).
  rewrite <- Hd in Hdate'. rewrite <- Hdesc in Hq'. rewrite <- Hsh in Hparsed'.
  rewrite <- Hp in Hamount'. rewrite <- Hf in Hfees'.
  simpl. rewrite <- Hname, <- Hsym.
  assert (parsed' = parsed) as -> by congruence.
  repeat split; congruence.
Qed.

End RecordProperties.

(* ===================================================================== *)
(** * Further properties of the two passes *)
(* ===================================================================== *)

Lemma lenientParse_strict_then_lenient {A B} (xs : list (result A))
    (transform : A -> result B) (l : list B) :
  lenientParse xs transform false = Ok l ->
  lenientParse xs transform true = Ok l.
Proof.
  revert l. induction xs as [|x xs IH]; intros l; simpl; [auto|].
  destruct x as [a|e]; [|discriminate].
  destruct (transform a) as [b|e]; [|discriminate].
  intros H. apply bind_Ok in H as (bs & Hbs & [= <-]).
  rewrite (IH _ Hbs). reflexivity.
Qed.

Lemma lenientParse_Raise {A B} (xs : list (result A))
    (transform : A -> result B) (lenient : bool) (e : exn) :
  lenientParse xs transform lenient = Raise e ->
  Raise e ∈ xs \/
  exists a, Ok a ∈ xs /\ transform a = Raise e /\
            (lenient = false \/ is_conversion_failure e = false).
Proof.
  induction xs as [|x xs IH]; simpl; [discriminate|].
  destruct x as [a|e0].
  - destruct (transform a) as [b|e1] eqn:Ha.
    + intros H. apply bind_Raise in H as [H|(bs & _ & [=])].
      destruct (IH H) as [Hin|(a' & Hin & Hrest)].
      * left. apply elem_of_cons. auto.
      * right. exists a'. split; [apply elem_of_cons; auto | exact Hrest].
    + destruct (lenient && is_conversion_failure e1) eqn:Hskip.
      * intros H. destruct (IH H) as [Hin|(a' & Hin & Hrest)].
        -- left. apply elem_of_cons. auto.
        -- right. exists a'. split; [apply elem_of_cons; auto | exact Hrest].
      * intros [= <-]. right. exists a.
        split; [apply elem_of_cons; auto|]. split; [exact Ha|].
        apply andb_false_iff in Hskip. exact Hskip.
  - intros [= <-]. left. apply elem_of_cons. auto.
Qed.

Lemma lenientParse_Ok_omap {A B} (xs : list (result A))
    (transform : A -> result B) (lenient : bool) (l : list B) :
  lenientParse xs transform lenient = Ok l ->
  l = omap (fun x => match x with
                     | Ok a => match transform a with
                               | Ok b => Some b
                               | Raise _ => None
                               end
                     | Raise _ => None
                     end) xs.
Proof.
  revert l. induction xs as [|x xs IH]; intros l; simpl.
  - intros [= <-]. reflexivity.
  - destruct x as [a|e]; [|discriminate].
    destruct (transform a) as [b|e].
    + intros H. apply bind_Ok in H as (bs & Hbs & [= <-]).
      f_equal. apply IH. exact Hbs.
    + destruct (lenient && is_conversion_failure e); [|discriminate].
      apply IH.
Qed.

Lemma lenientParse_strict_length {A B} (xs : list (result A))
    (transform : A -> result B) (l : list B) :
  lenientParse xs transform false = Ok l -> length l = length xs.
Proof.
  revert l. induction xs as [|x xs IH]; intros l; simpl.
  - intros [= <-]. reflexivity.
  - destruct x as [a|e]; [|discriminate].
    destruct (transform a) as [b|e]; [|discriminate].
    intros H. apply bind_Ok in H as (bs & Hbs & [= <-]).
    simpl. rewrite (IH _ Hbs). reflexivity.
Qed.

Lemma VanguardTransaction_make_Raise (r : Row) (e : exn) :
  VanguardTransaction_make r = Raise e -> e = TypeError.
Proof.
  unfold VanguardTransaction_make.
  do 13 (destruct r as [|? r]; [intros [= <-]; reflexivity|]).
  destruct r; [discriminate | intros [= <-]; reflexivity].
Qed.

Lemma VanguardPosition_make_Raise (r : Row) (e : exn) :
  VanguardPosition_make r = Raise e -> e = TypeError.
Proof.
  unfold VanguardPosition_make.
  do 5 (destruct r as [|? r]; [intros [= <-]; reflexivity|]).
  destruct r; [discriminate | intros [= <-]; reflexivity].
Qed.

Lemma mapM_make_Raise (section : list Row) (e : exn) :
  mapM VanguardPosition_make section = Raise e -> e = TypeError.
Proof.
  induction section as [|r section IH]; simpl; [discriminate|].
  intros H. apply bind_Raise in H as [H|(p & _ & H)].
  - exact (VanguardPosition_make_Raise _ _ H).
  - apply bind_Raise in H as [H|(ps & _ & [=])]. exact (IH H).
Qed.

Lemma mapM_make_wrong_arity (section : list Row) (r : Row) :
  r ∈ section -> length r <> 5 ->
  mapM VanguardPosition_make section = Raise TypeError.
Proof.
  intros Hin Hlen. induction section as [|r0 section IH].
  - apply elem_of_nil in Hin. contradiction.
  - simpl. destruct (VanguardPosition_make r0) as [p|e] eqn:Hr0.
    + apply elem_of_cons in Hin as [-> |Hin].
      * exfalso. apply Hlen. apply VanguardPosition_make_arity. eexists; eauto.
      * simpl. rewrite (IH Hin). reflexivity.
    + apply VanguardPosition_make_Raise in Hr0 as ->. reflexivity.
Qed.

Lemma mapM_make_length (section : list Row) (ps : list VanguardPosition) :
  mapM VanguardPosition_make section = Ok ps -> length ps = length section.
Proof.
  revert ps. induction section as [|r section IH]; intros ps; simpl.
  - intros [= <-]. reflexivity.
  - intros H. apply bind_Ok in H as (p & _ & H).
    apply bind_Ok in H as (ps' & Hps' & [= <-]).
    simpl. rewrite (IH _ Hps'). reflexivity.
Qed.

(** ** Claim about the positions pass *)

Lemma mapM_result_app {A B} (f : A -> result B) (l1 l2 : list A) :
  mapM f (l1 ++ l2)%list =
  ys1 ← mapM f l1; ys2 ← mapM f l2; mret (ys1 ++ ys2)%list.
Proof.
  induction l1 as [|x l1 IH]; simpl.
  - destruct (mapM f l2); reflexivity.
  - destruct (f x) as [y|e]; simpl; [|reflexivity].
    rewrite IH. destruct (mapM f l1) as [ys1|e]; simpl; [|reflexivity].
    destruct (mapM f l2); reflexivity.
Qed.

(** In lenient mode an item whose conversion fails with a conversion
    failure is dropped: the result is that of the sequence without it. *)
Lemma lenientParse_drops {A B} (transform : A -> result B)
    (xs1 : list A) (x : A) (xs2 : list A) (e : exn) :
  transform x = Raise e ->
  is_conversion_failure e = true ->
  lenientParse (Ok <$> (xs1 ++ x :: xs2)%list) transform true =
  lenientParse (Ok <$> (xs1 ++ xs2)%list) transform true.
Proof.
  intros Hx He. induction xs1 as [|x1 xs1 IH].
  - cbn [app fmap list_fmap lenientParse]. rewrite Hx, He. reflexivity.
  - cbn [app fmap list_fmap lenientParse].
    cbn [fmap] in IH. rewrite IH. reflexivity.
Qed.

(** In strict mode the first conversion that fails ends the parse with its
    exception. *)
Lemma lenientParse_strict_failure {A B} (transform : A -> result B)
    (xs1 : list A) (x : A) (xs2 : list A) (e : exn) :
  Forall (fun y => is_Ok (transform y)) xs1 ->
  transform x = Raise e ->
  lenientParse (Ok <$> (xs1 ++ x :: xs2)%list) transform false = Raise e.
Proof.
  intros Hxs1 Hx. induction Hxs1 as [|x1 xs1 [b Hb] _ IH].
  - cbn [app fmap list_fmap lenientParse]. rewrite Hx. reflexivity.
  - cbn [app fmap list_fmap lenientParse].
    cbn [fmap] in IH. rewrite Hb, IH. reflexivity.
Qed.

Section PositionClaims.

Context {collaborators : Collaborators}.


End PositionClaims.


Section PassProperties.

Context {collaborators : Collaborators}.

Import DecimalFacts.

Lemma parseVanguardTransaction_Raise (t : VanguardTransaction) (e : exn) :
  parseVanguardTransaction t = Raise e -> is_conversion_failure e = true.
Proof.
  intros H.
  destruct (decide (transactionType t ∈ validTransactionTypes)) as [Hin|Hout].
  - apply valid_type_has_flags in Hin as [flags Hin].
    rewrite (parseVanguardTransaction_recognized _ _ Hin) in H.
    apply bind_Raise in H as [H|(trade & _ & [=])].
    exact (forceParse_Raise _ _ _ H).
  - rewrite parseVanguardTransaction_unrecognized in H by exact Hout.
    discriminate.
Qed.

Lemma parseVanguardPosition_Raise (p : VanguardPosition)
    (activity : list Activity) (e : exn) :
  parseVanguardPosition p activity = Raise e ->
  e = ValueError \/ e = InvalidOperation \/ e = AssertionError.
Proof.
  rewrite parseVanguardPosition_unfold. unfold mkPosition. intros H.
  apply bind_Raise in H as [H|(i & _ & H)];
    [apply validated_Raise in H as ->; auto|].
  apply bind_Raise in H as [H|(qty & _ & H)];
    [apply of_string_Raise in H as ->; auto|].
  destruct (realizedBasisForSymbol _ _).
  - apply validated_Raise in H as ->. auto.
  - injection H as <-. auto.
Qed.

Lemma parseVanguardTransaction_Raise_cases (t : VanguardTransaction)
    (e : exn) :
  parseVanguardTransaction t = Raise e ->
  e = ValueError \/ e = InvalidOperation \/ e = Overflow.
Proof.
  intros H.
  destruct (decide (transactionType t ∈ validTransactionTypes)) as [Hin|Hout].
  - apply valid_type_has_flags in Hin as [flags Hin].
    rewrite (parseVanguardTransaction_recognized _ _ Hin) in H.
    apply bind_Raise in H as [H|(trade & _ & [=])].
    apply forceParse_Raise_cases in H as [-> | [-> | [-> _]]]; auto.
  - rewrite parseVanguardTransaction_unrecognized in H by exact Hout.
    discriminate.
Qed.

Lemma transactions_of_rows_Raise (section : list Row) (lenient : bool)
    (e : exn) :
  transactions_of_rows section lenient = Raise e ->
  e = TypeError \/
  (lenient = false /\
   (e = ValueError \/ e = InvalidOperation \/ e = Overflow)).
Proof.
  induction section as [|r section IH].
  - discriminate.
  - rewrite transactions_of_rows_cons.
    destruct (VanguardTransaction_make r) as [t|e0] eqn:Hr.
    + destruct (parseVanguardTransaction t) as [[trade|]|e1] eqn:Ht.
      * intros H. apply bind_Raise in H as [H|(rest & _ & [=])]. exact (IH H).
      * exact IH.
      * pose proof (parseVanguardTransaction_Raise_cases _ _ Ht) as Hcases.
        apply parseVanguardTransaction_Raise in Ht.
        rewrite Ht, andb_true_r. destruct lenient; [exact IH|].
        intros [= <-]. auto.
    + intros [= <-]. left. exact (VanguardTransaction_make_Raise _ _ Hr).
Qed.

Lemma transactions_of_rows_Ok_omap (section : list Row) (lenient : bool)
    (acts : list Activity) :
  transactions_of_rows section lenient = Ok acts ->
  acts = omap activity_of_row section.
Proof.
  revert acts. induction section as [|r section IH]; intros acts.
  - intros [= <-]. reflexivity.
  - rewrite transactions_of_rows_cons. cbn [omap list_omap].
    unfold activity_of_row at 1.
    destruct (VanguardTransaction_make r) as [t|e0]; [|discriminate].
    destruct (parseVanguardTransaction t) as [[trade|]|e1].
    + intros H. apply bind_Ok in H as (rest & Hrest & [= <-]).
      f_equal. apply IH. exact Hrest.
    + apply IH.
    + destruct (lenient && is_conversion_failure e1); [apply IH|discriminate].
Qed.

Lemma transactions_of_rows_lenient_total (section : list Row) :
  Forall (fun r => length r = 13) section ->
  is_Ok (transactions_of_rows section true).
Proof.
  induction 1 as [|r section Hr _ IH].
  - eexists. reflexivity.
  - rewrite transactions_of_rows_cons.
    apply VanguardTransaction_make_arity in Hr as [t ->].
    destruct IH as [acts IH].
    destruct (parseVanguardTransaction t) as [[trade|]|e1] eqn:Ht.
    + rewrite IH. eexists. reflexivity.
    + exists acts. exact IH.
    + apply parseVanguardTransaction_Raise in Ht. rewrite Ht. simpl.
      exists acts. exact IH.
Qed.

End PassProperties.

Lemma length_omap_le {A B} (f : A -> option B) (l : list A) :
  length (omap f l) <= length l.
Proof.
  induction l as [|x l IH]; [reflexivity|].
  cbn [omap list_omap length]. fold (omap f l).
  destruct (f x); cbn [length]; lia.
Qed.

Section PassTheorems.

Context {collaborators : Collaborators}.

Lemma parseTransactions_of_section (csvfile : list Row) (lenient : bool)
    (section : CSVSectionResult) (rest : list CSVSectionResult) :
  parseSectionsForCSV csvfile [transactionsCriterion] = section :: rest ->
  __parseTransactions csvfile lenient =
  transactions_of_rows (rows section) lenient.
Proof. intros H. unfold __parseTransactions. rewrite H. reflexivity. Qed.

Lemma parsePositions_of_section (csvfile : list Row)
    (activity : list Activity) (lenient : bool)
    (section : CSVSectionResult) (rest : list CSVSectionResult) :
  parseSectionsForCSV csvfile [positionsCriterion] = section :: rest ->
  __parsePositions csvfile activity lenient =
  positions_of_rows (rows section) activity lenient.
Proof. intros H. unfold __parsePositions. rewrite H. reflexivity. Qed.

Lemma positions_omap (activity : list Activity) (section : list Row)
    (vps : list VanguardPosition) :
  mapM VanguardPosition_make section = Ok vps ->
  omap (position_of_row activity) section =
  omap (fun x : result VanguardPositionAndActivity =>
          match x with
          | Ok a => match parseVanguardPositionAndActivity a with
                    | Ok b => Some b
                    | Raise _ => None
                    end
          | Raise _ => None
          end)
    (Ok <$> ((fun pos => mk_VanguardPositionAndActivity pos activity)
               <$> vps)).
Proof.
  revert vps. induction section as [|r section IH]; intros vps H.
  - simpl in H. injection H as <-. reflexivity.
  - simpl in H. apply bind_Ok in H as (p & Hp & H).
    apply bind_Ok in H as (vps' & Hvps' & [= <-]).
    cbn [fmap list_fmap omap list_omap].
    unfold position_of_row at 1. rewrite Hp.
    unfold parseVanguardPositionAndActivity at 1.
    cbn [vpa_position vpa_activity].
    destruct (parseVanguardPosition p activity).
    + f_equal. exact (IH _ Hvps').
    + exact (IH _ Hvps').
Qed.

(** X9: when the transactions pass returns, in either mode, its activity is
    exactly the trades of the rows of the section that convert, in the
    order of the file: no row adds more than one record, none is reordered
    or duplicated, and there are at most as many records as rows. *)
Theorem activity_is_the_converted_rows_in_order :
  forall (csvfile : list Row) (lenient : bool) (section : CSVSectionResult)
         (rest : list CSVSectionResult) (acts : list Activity),
    parseSectionsForCSV csvfile [transactionsCriterion] = section :: rest ->
    __parseTransactions csvfile lenient = Ok acts ->
    acts = omap activity_of_row (rows section) /\
    length acts <= length (rows section).
Proof.
  intros csvfile lenient section rest acts Hsec H.
  rewrite (parseTransactions_of_section _ _ _ _ Hsec) in H.
  apply transactions_of_rows_Ok_omap in H as ->.
  split; [reflexivity | apply length_omap_le].
Qed.

(** X10: when the positions pass returns, in either mode, its positions are
    exactly those of the rows of the section that convert, in the order of
    the file; in strict mode every row of the section has its position. *)
Theorem positions_are_the_converted_rows_in_order :
  forall (csvfile : list Row) (activity : list Activity) (lenient : bool)
         (section : CSVSectionResult) (rest : list CSVSectionResult)
         (ps : list Position),
    parseSectionsForCSV csvfile [positionsCriterion] = section :: rest ->
    __parsePositions csvfile activity lenient = Ok ps ->
    ps = omap (position_of_row activity) (rows section) /\
    length ps <= length (rows section) /\
    (lenient = false -> length ps = length (rows section)).
Proof.
  intros csvfile activity lenient section rest ps Hsec H.
  rewrite (parsePositions_of_section _ _ _ _ _ Hsec) in H.
  unfold positions_of_rows in H.
  apply bind_Ok in H as (vps & Hvps & H).
  assert (Hps : ps = omap (position_of_row activity) (rows section)).
  { rewrite (positions_omap _ _ _ Hvps).
    exact (lenientParse_Ok_omap _ _ _ _ H). }
  split; [exact Hps|]. split.
  - rewrite Hps. apply length_omap_le.
  - intros ->. apply lenientParse_strict_length in H.
    rewrite H, !length_fmap. exact (mapM_make_length _ _ Hvps).
Qed.

(** X11: the exceptions that leave the passes.  The transactions pass
    raises [TypeError] (a row of the wrong arity) or, in strict mode only,
    a [ValueError], [InvalidOperation] or [Overflow] of a row.  The
    positions pass raises [TypeError], [AssertionError] or, in strict mode
    only, [ValueError] or [InvalidOperation].  [KeyError] never leaves the
    parse. *)
Theorem exceptions_of_the_passes :
  (forall (csvfile : list Row) (lenient : bool) (e : exn),
      __parseTransactions csvfile lenient = Raise e ->
      e = TypeError \/
      (lenient = false /\
       (e = ValueError \/ e = InvalidOperation \/ e = Overflow))) /\
  (forall (csvfile : list Row) (activity : list Activity) (lenient : bool)
          (e : exn),
      __parsePositions csvfile activity lenient = Raise e ->
      e = TypeError \/ e = AssertionError \/
      (lenient = false /\ (e = ValueError \/ e = InvalidOperation))) /\
  (forall (csvfile : list Row) (lenient : bool),
      parsePositionsAndActivity csvfile lenient <> Raise KeyError).
Proof.
  assert (Ht : forall (csvfile : list Row) (lenient : bool) (e : exn),
             __parseTransactions csvfile lenient = Raise e ->
             e = TypeError \/
             (lenient = false /\
              (e = ValueError \/ e = InvalidOperation \/ e = Overflow))).
  { intros csvfile lenient e H. unfold __parseTransactions in H.
    destruct (parseSectionsForCSV _ _) as [|section rest]; [discriminate|].
    change (transactions_of_rows (rows section) lenient = Raise e) in H.
    exact (transactions_of_rows_Raise _ _ _ H). }
  assert (Hp : forall (csvfile : list Row) (activity : list Activity)
                      (lenient : bool) (e : exn),
             __parsePositions csvfile activity lenient = Raise e ->
             e = TypeError \/ e = AssertionError \/
             (lenient = false /\ (e = ValueError \/ e = InvalidOperation))).
  { intros csvfile activity lenient e H. unfold __parsePositions in H.
    destruct (parseSectionsForCSV _ _) as [|section rest]; [discriminate|].
    apply bind_Raise in H as [H|(vps & _ & H)].
    { left. exact (mapM_make_Raise _ _ H). }
    apply lenientParse_Raise in H as [Hin|(a & _ & Ha & Hmode)].
    { apply list_elem_of_fmap in Hin as (x & [=] & _). }
    apply parseVanguardPosition_Raise in Ha as [-> |[-> | ->]].
    - destruct Hmode as [-> |[=]]. auto.
    - destruct Hmode as [-> |[=]]. auto.
    - auto. }
  split; [exact Ht|]. split; [exact Hp|].
  intros csvfile lenient H. unfold parsePositionsAndActivity in H.
  apply bind_Raise in H as [H|(acts & _ & H)].
  - apply Ht in H as [[=]|[_ [[=]|[[=]|[=]]]]].
  - apply bind_Raise in H as [H|(ps & _ & [=])].
    apply Hp in H as [[=]|[[=]|[_ [[=]|[=]]]]].
Qed.

(** X12: in lenient mode the transactions pass does not fail on the content
    of a row: when every row of the section has thirteen cells, it
    returns. *)
Theorem lenient_transactions_pass_returns :
  forall (csvfile : list Row) (section : CSVSectionResult)
         (rest : list CSVSectionResult),
    parseSectionsForCSV csvfile [transactionsCriterion] = section :: rest ->
    Forall (fun r => length r = 13) (rows section) ->
    is_Ok (__parseTransactions csvfile true).
Proof.
  intros csvfile section rest Hsec Hrows.
  rewrite (parseTransactions_of_section _ _ _ _ Hsec).
  exact (transactions_of_rows_lenient_total _ Hrows).
Qed.

(** X13: a row of the positions section that has not five cells ends the
    positions pass with [TypeError] in either mode, whatever the other rows
    hold and wherever it stands: the records are built from all rows
    before the first row is converted. *)
Theorem positions_arity_fails_first :
  forall (csvfile : list Row) (activity : list Activity) (lenient : bool)
         (section : CSVSectionResult) (rest : list CSVSectionResult)
         (r : Row),
    parseSectionsForCSV csvfile [positionsCriterion] = section :: rest ->
    r ∈ rows section ->
    length r <> 5 ->
    __parsePositions csvfile activity lenient = Raise TypeError.
Proof.
  intros csvfile activity lenient section rest r Hsec Hin Hlen.
  rewrite (parsePositions_of_section _ _ _ _ _ Hsec).
  unfold positions_of_rows.
  rewrite (mapM_make_wrong_arity _ _ Hin Hlen). reflexivity.
Qed.

(** X14: lenient mode extends strict mode: whatever a pass, or the whole
    parse, returns in strict mode, it returns in lenient mode too. *)
Theorem strict_result_is_the_lenient_result :
  (forall (csvfile : list Row) (acts : list Activity),
      __parseTransactions csvfile false = Ok acts ->
      __parseTransactions csvfile true = Ok acts) /\
  (forall (csvfile : list Row) (activity : list Activity)
          (ps : list Position),
      __parsePositions csvfile activity false = Ok ps ->
      __parsePositions csvfile activity true = Ok ps) /\
  (forall (csvfile : list Row) (pa : PositionsAndActivity),
      parsePositionsAndActivity csvfile false = Ok pa ->
      parsePositionsAndActivity csvfile true = Ok pa).
Proof.
  assert (Ht : forall (csvfile : list Row) (acts : list Activity),
             __parseTransactions csvfile false = Ok acts ->
             __parseTransactions csvfile true = Ok acts).
  { intros csvfile acts. unfold __parseTransactions.
    destruct (parseSectionsForCSV _ _) as [|section rest]; [auto|].
    intros H. apply bind_Ok in H as (parsed & Hparsed & H).
    rewrite (lenientParse_strict_then_lenient _ _ _ Hparsed). exact H. }
  assert (Hp : forall (csvfile : list Row) (activity : list Activity)
                      (ps : list Position),
             __parsePositions csvfile activity false = Ok ps ->
             __parsePositions csvfile activity true = Ok ps).
  { intros csvfile activity ps. unfold __parsePositions.
    destruct (parseSectionsForCSV _ _) as [|section rest]; [auto|].
    intros H. apply bind_Ok in H as (vps & Hvps & H).
    rewrite Hvps. simpl.
    exact (lenientParse_strict_then_lenient _ _ _ H). }
  split; [exact Ht|]. split; [exact Hp|].
  intros csvfile pa H. unfold parsePositionsAndActivity in *.
  apply bind_Ok in H as (acts & Hacts & H).
  apply bind_Ok in H as (ps & Hps & H).
  rewrite (Ht _ _ Hacts). simpl. rewrite (Hp _ _ _ Hps). exact H.
Qed.

End PassTheorems.

(* ===================================================================== *)
(** * Properties of the test helpers *)
(* ===================================================================== *)

Module HelperFacts.

#[local] Arguments String.append : simpl nomatch.

Lemma split_not_nil (sep : ascii) (s : string) : PyStr.split sep s <> [].
Proof.
  destruct s as [|c s]; simpl; [discriminate|].
  destruct (Ascii.eqb c sep); [discriminate|].
  destruct (PyStr.split sep s); discriminate.
Qed.

Lemma length_split (sep : ascii) (s : string) :
  length (PyStr.split sep s) = S (PyStr.count sep s).
Proof.
  induction s as [|c s IH]; simpl; [reflexivity|].
  destruct (Ascii.eqb c sep); simpl; [rewrite IH; reflexivity|].
  destruct (PyStr.split sep s) as [|f fs] eqn:Hs.
  - destruct (split_not_nil _ _ Hs).
  - simpl in *. exact IH.
Qed.

Lemma split_fields_without_sep (sep : ascii) (s : string) :
  Forall (fun f => PyStr.count sep f = 0) (PyStr.split sep s).
Proof.
  induction s as [|c s IH]; simpl.
  - repeat constructor.
  - destruct (Ascii.eqb c sep) eqn:Hc.
    + constructor; [reflexivity | exact IH].
    + destruct (PyStr.split sep s) as [|f fs].
      * repeat constructor. simpl. rewrite Hc. reflexivity.
      * inversion IH as [|? ? Hf Hfs]; subst. constructor; [|exact Hfs].
        simpl. rewrite Hc, Hf. reflexivity.
Qed.

Lemma join_split (sep : ascii) (s : string) :
  PyStr.join sep (PyStr.split sep s) = s.
Proof.
  induction s as [|c s IH]; simpl; [reflexivity|].
  destruct (Ascii.eqb_spec c sep) as [->|Hc].
  - destruct (PyStr.split sep s) as [|f fs] eqn:Hs.
    + destruct (split_not_nil _ _ Hs).
    + cbn [PyStr.join]. cbn [PyStr.join] in IH. rewrite IH. reflexivity.
  - destruct (PyStr.split sep s) as [|f fs] eqn:Hs.
    + destruct (split_not_nil _ _ Hs).
    + destruct fs as [|g fs]; simpl in *; rewrite IH; reflexivity.
Qed.

Lemma split_without_sep (sep : ascii) (f : string) :
  PyStr.count sep f = 0 -> PyStr.split sep f = [f].
Proof.
  induction f as [|c f IH]; simpl; [reflexivity|].
  rewrite Ascii.eqb_sym.
  destruct (Ascii.eqb sep c); [discriminate|].
  intros H. rewrite (IH H). reflexivity.
Qed.

Lemma split_app_sep (sep : ascii) (f s : string) :
  PyStr.count sep f = 0 ->
  PyStr.split sep (f ++ String sep s) = f :: PyStr.split sep s.
Proof.
  induction f as [|c f IH]; simpl.
  - intros _. rewrite Ascii.eqb_refl. reflexivity.
  - rewrite Ascii.eqb_sym.
    destruct (Ascii.eqb sep c); [discriminate|].
    intros H. rewrite (IH H). reflexivity.
Qed.

Lemma join_cons_cons (sep : ascii) (f g : string) (fields : list string) :
  PyStr.join sep (f :: g :: fields) =
  f ++ String sep (PyStr.join sep (g :: fields)).
Proof. reflexivity. Qed.

Lemma split_join (sep : ascii) (fields : list string) :
  fields <> [] ->
  Forall (fun f => PyStr.count sep f = 0) fields ->
  PyStr.split sep (PyStr.join sep fields) = fields.
Proof.
  intros Hne H. induction H as [|f fields Hf Hfields IH]; [congruence|].
  destruct fields as [|g fields].
  - simpl. apply split_without_sep. exact Hf.
  - rewrite join_cons_cons, (split_app_sep _ _ _ Hf).
    rewrite IH by discriminate. reflexivity.
Qed.

Lemma lstrip_head (s : string) :
  match Py.lstrip s with
  | EmptyString => True
  | String c _ => Py.isspace c = false
  end.
Proof.
  induction s as [|c s IH]; simpl; [exact I|].
  destruct (Py.isspace c) eqn:Hc; [exact IH | exact Hc].
Qed.

Lemma lstrip_fixed (c : ascii) (s : string) :
  Py.isspace c = false -> Py.lstrip (String c s) = String c s.
Proof. intros H. simpl. rewrite H. reflexivity. Qed.

Lemma rstrip_head (c : ascii) (s : string) :
  Py.isspace c = false -> exists r, Py.rstrip (String c s) = String c r.
Proof.
  intros H. simpl. destruct (Py.rstrip s); [rewrite H|]; eauto.
Qed.

Lemma rstrip_cons (c : ascii) (s : string) :
  Py.rstrip (String c s) =
  match Py.rstrip s with
  | EmptyString => if Py.isspace c then EmptyString else String c EmptyString
  | String d r => String c (String d r)
  end.
Proof. simpl. destruct (Py.rstrip s); reflexivity. Qed.

Lemma rstrip_idempotent (s : string) : Py.rstrip (Py.rstrip s) = Py.rstrip s.
Proof.
  induction s as [|c s IH]; [reflexivity|].
  rewrite (rstrip_cons c s).
  destruct (Py.rstrip s) as [|d r] eqn:Hs.
  - destruct (Py.isspace c) eqn:Hc; [reflexivity|].
    rewrite rstrip_cons. simpl. rewrite Hc. reflexivity.
  - rewrite rstrip_cons, IH. reflexivity.
Qed.

Lemma strip_no_space_at_ends (s : string) : no_space_at_ends (Py.strip s).
Proof.
  unfold no_space_at_ends, Py.strip. split; [|apply rstrip_idempotent].
  pose proof (lstrip_head s) as H.
  destruct (Py.lstrip s) as [|c r]; [reflexivity|].
  destruct (rstrip_head c r H) as [r' ->]. apply lstrip_fixed. exact H.
Qed.

Lemma strip_fixed (s : string) : no_space_at_ends s -> Py.strip s = s.
Proof. intros [Hl Hr]. unfold Py.strip. rewrite Hl. exact Hr. Qed.

Lemma count_lstrip_le (c : ascii) (s : string) :
  PyStr.count c (Py.lstrip s) <= PyStr.count c s.
Proof.
  induction s as [|d s IH]; simpl; [lia|].
  destruct (Py.isspace d); simpl; lia.
Qed.

Lemma count_rstrip_le (c : ascii) (s : string) :
  PyStr.count c (Py.rstrip s) <= PyStr.count c s.
Proof.
  induction s as [|d s IH]; simpl; [lia|].
  destruct (Py.rstrip s) as [|e r].
  - destruct (Py.isspace d); simpl in *; lia.
  - simpl in *. lia.
Qed.

Lemma count_strip_le (c : ascii) (s : string) :
  PyStr.count c (Py.strip s) <= PyStr.count c s.
Proof.
  unfold Py.strip.
  pose proof (count_rstrip_le c (Py.lstrip s)).
  pose proof (count_lstrip_le c s). lia.
Qed.

Lemma splitAndStrip_length (s : string) :
  length (splitAndStripCSVString s) = S (PyStr.count "," s).
Proof.
  unfold splitAndStripCSVString. rewrite length_fmap. apply length_split.
Qed.

Lemma splitAndStrip_not_nil (s : string) : splitAndStripCSVString s <> [].
Proof.
  intros H. pose proof (splitAndStrip_length s) as Hlen.
  rewrite H in Hlen. discriminate.
Qed.

Lemma splitAndStrip_clean (s : string) :
  Forall (fun f => PyStr.count "," f = 0 /\ no_space_at_ends f)
    (splitAndStripCSVString s).
Proof.
  unfold splitAndStripCSVString. apply Forall_fmap.
  eapply Forall_impl; [apply (split_fields_without_sep "," s)|].
  intros f Hf.
  change (PyStr.count "," (Py.strip f) = 0 /\ no_space_at_ends (Py.strip f)).
  pose proof (count_strip_le "," f) as Hle. cbn beta in Hf.
  split; [lia | apply strip_no_space_at_ends].
Qed.

End HelperFacts.

(** X15: [splitAndStripCSVString] returns one field more than the text has
    commas; in particular it never returns the empty list, and the empty
    text gives one empty field. *)
Theorem splitAndStripCSVString_field_count :
  forall s : string,
    length (splitAndStripCSVString s) = S (PyStr.count "," s) /\
    splitAndStripCSVString s <> [] /\
    splitAndStripCSVString "" = [""].
Proof.
  intros s. split; [apply HelperFacts.splitAndStrip_length|].
  split; [apply HelperFacts.splitAndStrip_not_nil | reflexivity].
Qed.

(** X16: no field that [splitAndStripCSVString] returns holds a comma or
    starts or ends with whitespace: stripping a field again changes
    nothing. *)
Theorem splitAndStripCSVString_fields_are_clean :
  forall s : string,
    Forall (fun f => PyStr.count "," f = 0 /\
                     no_space_at_ends f /\ Py.strip f = f)
      (splitAndStripCSVString s).
Proof.
  intros s.
  eapply Forall_impl; [apply (HelperFacts.splitAndStrip_clean s)|].
  intros f [Hf Hends]. split; [exact Hf|]. split; [exact Hends|].
  apply HelperFacts.strip_fixed. exact Hends.
Qed.

(** X17: [splitAndStripCSVString] undoes joining with commas: fields
    without commas, joined, come back stripped, and come back as they were
    when they neither start nor end with whitespace.  Joining what it
    returns and splitting again returns the same fields. *)
Theorem splitAndStripCSVString_of_join :
  (forall fields : list string,
      fields <> [] ->
      Forall (fun f => PyStr.count "," f = 0) fields ->
      splitAndStripCSVString (PyStr.join "," fields) = Py.strip <$> fields) /\
  (forall fields : list string,
      fields <> [] ->
      Forall (fun f => PyStr.count "," f = 0 /\ no_space_at_ends f) fields ->
      splitAndStripCSVString (PyStr.join "," fields) = fields) /\
  (forall s : string,
      splitAndStripCSVString (PyStr.join "," (splitAndStripCSVString s)) =
      splitAndStripCSVString s).
Proof.
  assert (H1 : forall fields : list string,
             fields <> [] ->
             Forall (fun f => PyStr.count "," f = 0) fields ->
             splitAndStripCSVString (PyStr.join "," fields) =
               Py.strip <$> fields).
  { intros fields Hne H. unfold splitAndStripCSVString.
    rewrite (HelperFacts.split_join _ _ Hne H). reflexivity. }
  assert (H2 : forall fields : list string,
             fields <> [] ->
             Forall (fun f => PyStr.count "," f = 0 /\ no_space_at_ends f)
               fields ->
             splitAndStripCSVString (PyStr.join "," fields) = fields).
  { intros fields Hne H. rewrite H1; [|exact Hne|].
    - induction H as [|f fields [_ Hf] _ IH]; [reflexivity|].
      cbn [fmap list_fmap]. rewrite (HelperFacts.strip_fixed _ Hf).
      f_equal. destruct fields; [reflexivity | apply IH; discriminate].
    - eapply Forall_impl; [exact H|]. intros f [Hf _]. exact Hf. }
  split; [exact H1|]. split; [exact H2|].
  intros s. apply H2.
  - apply HelperFacts.splitAndStrip_not_nil.
  - apply HelperFacts.splitAndStrip_clean.
Qed.

(* ===================================================================== *)
(** * Instances of the further properties *)
(* ===================================================================== *)

Lemma raises_only_conversion_failures_witness :
  ("Sell" ∈ validTransactionTypes /\
   (InvalidOperation = ValueError \/ InvalidOperation = InvalidOperation \/
    InvalidOperation = Overflow) /\
   (InvalidOperation = Overflow -> "Sell" = "Redemption")) /\
  transactionDescription (example_transaction example_overflow_row) =
    "Redemption".
Proof.
  split.
  - apply (@parseVanguardTransaction_raises_only_conversion_failures
             example_collaborators (example_transaction example_bad_row)
             InvalidOperation).
    vm_compute. reflexivity.
  - apply (@parseVanguardTransaction_raises_only_conversion_failures
             example_collaborators (example_transaction example_overflow_row)
             Overflow).
    + vm_compute. reflexivity.
    + reflexivity.
Defined.

Lemma failure_order_witness :
  @parseVanguardPosition example_collaborators
    (mk_VanguardPosition "" "" "not a number" "" "") [] = Raise ValueError /\
  @parseVanguardPosition example_collaborators
    (mk_VanguardPosition "" "VTI" "not a number" "" "") [] =
    Raise InvalidOperation.
Proof.
  split.
  - apply (@parseVanguardPosition_failure_order example_collaborators
             (mk_VanguardPosition "" "" "not a number" "" "") []).
    vm_compute. reflexivity.
  - apply (@parseVanguardPosition_failure_order example_collaborators
             (mk_VanguardPosition "" "VTI" "not a number" "" "") []).
    split.
    + vm_compute. reflexivity.
    + intros [d Hd]. vm_compute in Hd. discriminate.
Defined.

Lemma transaction_reads_only_witness :
  @parseVanguardTransaction example_collaborators
    (example_transaction example_buy_row) =
  @parseVanguardTransaction example_collaborators
    (example_transaction example_buy_row_unread_changed) /\
  @parseVanguardTransaction example_collaborators
    (example_transaction example_buy_row) =
  @parseVanguardTransaction example_collaborators
    (example_transaction example_buy_row_renamed).
Proof.
  destruct (@parseVanguardTransaction_reads_only example_collaborators)
    as [Hread Hname].
  split.
  - apply Hread; [reflexivity|]. repeat split.
  - apply Hname; try reflexivity. discriminate.
Defined.

Lemma position_reads_only_witness :
  @parseVanguardPosition example_collaborators example_position
    [ActivityTrade example_buy_trade] =
  @parseVanguardPosition example_collaborators
    (mk_VanguardPosition "VANGUARD TOTAL STOCK MARKET ETF" "VTI" "10" "n/a"
       "") [ActivityTrade example_buy_trade] /\
  @parseVanguardPosition example_collaborators example_position
    [ActivityTrade example_buy_trade] =
  @parseVanguardPosition example_collaborators
    (mk_VanguardPosition "SOME 5 % NAME" "VTI" "10" "160.00" "1600.00")
    [ActivityTrade example_buy_trade].
Proof.
  destruct (@parseVanguardPosition_reads_only example_collaborators)
    as [Hread Hname].
  split.
  - apply Hread; reflexivity.
  - apply Hname; try reflexivity. discriminate.
Defined.

Lemma records_in_USD_witness :
  (instrument_currency (trade_instrument example_redemption_trade) = USD /\
   cash_currency (trade_amount example_redemption_trade) = USD /\
   cash_currency (trade_fees example_redemption_trade) = USD) /\
  instrument_currency (position_instrument example_converted_position) = USD.
Proof.
  destruct (@converted_records_are_in_USD example_collaborators)
    as [Htrade Hposition].
  split.
  - apply (Htrade (example_transaction example_redemption_row)).
    vm_compute. reflexivity.
  - apply (Hposition example_position [ActivityTrade example_buy_trade]).
    vm_compute. reflexivity.
Defined.

Lemma keyed_like_transactions_witness :
  instrument_symbol (trade_instrument example_redemption_trade) =
    lookup_symbol "" "US TREAS 2.5 % 2030" /\
  (instrument_symbol (position_instrument example_converted_position) =
     lookup_symbol "VTI" "VANGUARD TOTAL STOCK MARKET ETF" /\
   @realizedBasisForSymbol example_collaborators
     (lookup_symbol "VTI" "VANGUARD TOTAL STOCK MARKET ETF")
     [ActivityTrade example_buy_trade] =
     Some (position_costBasis example_converted_position) /\
   PyDecimal.of_string "10" =
     Ok (position_quantity example_converted_position)).
Proof.
  destruct (@position_is_keyed_like_its_transactions example_collaborators)
    as [Htrade Hposition].
  split.
  - apply (Htrade (example_transaction example_redemption_row)).
    vm_compute. reflexivity.
  - apply (Hposition example_position [ActivityTrade example_buy_trade]).
    vm_compute. reflexivity.
Defined.

Lemma flags_invariant_witness :
  trade_flags example_redemption_trade ∈ table_flags /\
  (OPEN ∈ trade_flags example_redemption_trade <->
   CLOSE ∉ trade_flags example_redemption_trade) /\
  (DRIP ∈ trade_flags example_redemption_trade <->
   "Corp Action (Redemption)" = "Reinvestment") /\
  (CLOSE ∈ trade_flags example_redemption_trade <->
   "Corp Action (Redemption)" = "Sell" \/
   "Corp Action (Redemption)" = "Corp Action (Redemption)" \/
   "Corp Action (Redemption)" = "Transfer (outgoing)") /\
  (EXPIRED ∉ trade_flags example_redemption_trade) /\
  (ASSIGNED_OR_EXERCISED ∉ trade_flags example_redemption_trade).
Proof.
  apply (@converted_flags_invariant example_collaborators
           (example_transaction example_redemption_row)).
  vm_compute. reflexivity.
Defined.

Lemma type_decides_flags_only_witness :
  trade_date example_sale_trade = trade_date example_buy_trade /\
  trade_instrument example_sale_trade = trade_instrument example_buy_trade /\
  trade_quantity example_sale_trade = trade_quantity example_buy_trade /\
  trade_amount example_sale_trade = trade_amount example_buy_trade /\
  trade_fees example_sale_trade = trade_fees example_buy_trade.
Proof.
  apply (@type_decides_flags_only example_collaborators
           (example_transaction example_buy_row)
           (example_transaction example_buy_row_as_sale)).
  - repeat split.
  - vm_compute. reflexivity.
  - vm_compute. reflexivity.
Defined.

Lemma activity_in_order_witness :
  [ActivityTrade example_buy_trade; ActivityTrade example_redemption_trade] =
    omap (@activity_of_row example_collaborators)
      (rows (mk_CSVSectionResult
               [Py.slice 1 (-1) example_buy_row;
                Py.slice 1 (-1) example_fee_row;
                Py.slice 1 (-1) example_bad_row;
                Py.slice 1 (-1) example_redemption_row])) /\
  length [ActivityTrade example_buy_trade;
          ActivityTrade example_redemption_trade] <=
  length (rows (mk_CSVSectionResult
                  [Py.slice 1 (-1) example_buy_row;
                   Py.slice 1 (-1) example_fee_row;
                   Py.slice 1 (-1) example_bad_row;
                   Py.slice 1 (-1) example_redemption_row])).
Proof.
  apply (@activity_is_the_converted_rows_in_order example_collaborators
           [example_transactions_header; example_buy_row; example_fee_row;
            example_bad_row; example_redemption_row] true _ []).
  - vm_compute. reflexivity.
  - vm_compute. reflexivity.
Defined.

Lemma positions_in_order_witness :
  [example_converted_position] =
    omap (@position_of_row example_collaborators
            [ActivityTrade example_buy_trade])
      (rows (mk_CSVSectionResult [Py.slice 1 6 example_position_row])) /\
  length [example_converted_position] <=
    length (rows (mk_CSVSectionResult [Py.slice 1 6 example_position_row])) /\
  (false = false ->
   length [example_converted_position] =
   length (rows (mk_CSVSectionResult [Py.slice 1 6 example_position_row]))).
Proof.
  apply (@positions_are_the_converted_rows_in_order example_collaborators
           [example_positions_header; example_position_row]
           [ActivityTrade example_buy_trade] false _ []).
  - vm_compute. reflexivity.
  - vm_compute. reflexivity.
Defined.

Lemma exceptions_of_the_passes_witness :
  (InvalidOperation = TypeError \/
   (false = false /\
    (InvalidOperation = ValueError \/ InvalidOperation = InvalidOperation \/
     InvalidOperation = Overflow))) /\
  (AssertionError = TypeError \/ AssertionError = AssertionError \/
   (false = false /\
    (AssertionError = ValueError \/ AssertionError = InvalidOperation))).
Proof.
  destruct (@exceptions_of_the_passes example_collaborators)
    as (Htransactions & Hpositions & _).
  split.
  - apply (Htransactions [example_transactions_header; example_bad_row]).
    vm_compute. reflexivity.
  - apply (Hpositions [example_positions_header; example_position_row] []).
    vm_compute. reflexivity.
Defined.

Lemma lenient_transactions_pass_returns_witness :
  is_Ok (@__parseTransactions example_collaborators
           [example_transactions_header; example_buy_row; example_bad_row;
            example_overflow_row; example_fee_row] true).
Proof.
  apply (@lenient_transactions_pass_returns example_collaborators _
           (mk_CSVSectionResult
              [Py.slice 1 (-1) example_buy_row;
               Py.slice 1 (-1) example_bad_row;
               Py.slice 1 (-1) example_overflow_row;
               Py.slice 1 (-1) example_fee_row]) []).
  - vm_compute. reflexivity.
  - repeat constructor.
Defined.

Lemma positions_arity_fails_first_witness :
  @__parsePositions example_collaborators
    [example_positions_header; example_position_row; ["Total"; "1600.00"]]
    [] true = Raise TypeError.
Proof.
  apply (@positions_arity_fails_first example_collaborators _ [] true
           (mk_CSVSectionResult
              [Py.slice 1 6 example_position_row;
               Py.slice 1 6 ["Total"; "1600.00"]]) []
           (Py.slice 1 6 ["Total"; "1600.00"])).
  - vm_compute. reflexivity.
  - apply elem_of_cons. right. apply elem_of_cons. left. reflexivity.
  - vm_compute. discriminate.
Defined.

Lemma strict_result_is_the_lenient_result_witness :
  @__parseTransactions example_collaborators
    [example_transactions_header; example_buy_row; example_fee_row;
     example_redemption_row] true =
  Ok [ActivityTrade example_buy_trade; ActivityTrade example_redemption_trade].
Proof.
  apply (proj1 (@strict_result_is_the_lenient_result example_collaborators)).
  vm_compute. reflexivity.
Defined.

Lemma splitAndStripCSVString_of_join_witness :
  splitAndStripCSVString (PyStr.join "," ["VTI"; "Total Stock"; ""; "10"]) =
  ["VTI"; "Total Stock"; ""; "10"].
Proof.
  apply (proj1 (proj2 splitAndStripCSVString_of_join)).
  - discriminate.
  - repeat constructor.
Defined.
